(** * diet-wise: the [generate-diet-plan] edge function

    A shallow embedding of the request handler passed to [serve]: the
    calorie target computed from the goal parameters, the extraction of a
    JSON object from the provider's reply, the hard-coded fallback plan,
    and the error envelope produced by the outer [catch].

    ECMAScript numbers are IEEE 754 binary64 values; they are modelled by
    [spec_float] with precision 53 and maximal exponent 1024, so every
    arithmetic operator below rounds exactly as the runtime does.
    ECMAScript strings are sequences of UTF-16 code units, modelled by
    lists of [N].

    The further parts cover the caller of the function, the submission of
    the goal form ([GoalSetup.handleSubmit]), and the figures of the progress
    page ([History.calculateProgress], [History.getProgressData]). *)

From Stdlib Require Import ZArith NArith List Bool Lia String Ascii.
From Stdlib Require Import Floats.SpecFloat.
From Stdlib Require Import Permutation.
Import ListNotations.

Local Open Scope Z_scope.

(** ** Numbers *)

Definition prec : Z := 53.
Definition emax : Z := 1024.

Definition number : Type := spec_float.

Definition NaN : number := S754_nan.
Definition Infinity : number := S754_infinity false.
Definition neg_Infinity : number := S754_infinity true.

(** An integer literal. *)
Definition of_Z (z : Z) : number := binary_normalize prec emax z 0 false.

(** The decimal [(-1)^neg * m * 10^e], for [0 <= m], rounded to the nearest
    double, ties to even: the value of a decimal literal, in the program
    text and in JSON alike. *)
Definition scale (neg : bool) (m e : Z) : number :=
  match m with
  | Z0 => S754_zero neg
  | _ =>
    if 0 <=? e
    then binary_normalize prec emax (cond_Zopp neg (m * 10 ^ e)) 0 false
    else
      let '(q, e2, l) := SFdiv_core_binary prec emax m 0 (10 ^ (- e)) 0 in
      binary_round_aux prec emax neg q e2 l
  end.

(** The literal [m * 10^(-k)]: [decimal 35 2] is [0.35]. *)
Definition decimal (m : Z) (k : Z) : number := scale (m <? 0) (Z.abs m) (- k).

Definition add : number -> number -> number := SFadd prec emax.
Definition sub : number -> number -> number := SFsub prec emax.
Definition mul : number -> number -> number := SFmul prec emax.
Definition div : number -> number -> number := SFdiv prec emax.

(** [x > y], [x >= y]: false as soon as one side is NaN. *)
Definition gt (x y : number) : bool := SFltb y x.
Definition ge (x y : number) : bool := SFleb y x.

(** A finite value with no fractional part. *)
Definition is_integer (x : number) : bool :=
  match x with
  | S754_zero _ => true
  | S754_finite _ m e => (0 <=? e) || (Z.land (Zpos m) (Z.ones (- e)) =? 0)
  | _ => false
  end.

Definition is_negative (x : number) : bool := SFltb x (S754_zero false).

Declare Scope js_scope.
Delimit Scope js_scope with js.
Infix "+" := add : js_scope.
Infix "-" := sub : js_scope.
Infix "*" := mul : js_scope.
Infix "/" := div : js_scope.

Module Math.

(** [Math.abs]. *)
Definition abs (x : number) : number := SFabs x.

(** [Math.round]: the integer closest to [x], a tie going towards
    +Infinity; non-finite and integral arguments are returned unchanged,
    and a result of zero keeps the sign of the argument.  For
    [x = M * 2^(-k)] this is [floor (x + 1/2) = floor ((2M + 2^k) / 2^(k+1))],
    computed on integers. *)
Definition round (x : number) : number :=
  match x with
  | S754_finite s m (Zneg k) =>
    let M := cond_Zopp s (Zpos m) in
    binary_normalize prec emax
      ((2 * M + 2 ^ Zpos k) / 2 ^ (Zpos k + 1)) 0 s
  | _ => x
  end.

End Math.

(** ** Strings *)

Definition code_unit : Type := N.
Definition text : Type := list code_unit.

Definition ch (a : ascii) : code_unit := N_of_ascii a.

Definition js (s : string) : text := List.map ch (list_ascii_of_string s).

Fixpoint text_eqb (a b : text) : bool :=
  match a, b with
  | [], [] => true
  | x :: a', y :: b' => N.eqb x y && text_eqb a' b'
  | _, _ => false
  end.

(** ** The calorie target (handler lines 34-47) *)

Section CalorieModel.

Local Open Scope js_scope.

Variables (goalType : text) (currentWeight targetWeight age goalDurationWeeks : number).

Definition weightDifference : number := Math.abs (targetWeight - currentWeight).
Definition totalWeeks : number := goalDurationWeeks.
Definition weeklyWeightChange : number := weightDifference / totalWeeks.
Definition weeklyCalorieAdjustment : number := weeklyWeightChange * of_Z 3500.
Definition dailyCalorieAdjustment : number := weeklyCalorieAdjustment / of_Z 7.

Definition baseBMR : number :=
  of_Z 1500 + (if gt age (of_Z 30) then of_Z (-100) else of_Z 100).

Definition targetCalories : number :=
  if text_eqb goalType (js "weight_loss")
  then Math.round (baseBMR - dailyCalorieAdjustment)
  else Math.round (baseBMR + dailyCalorieAdjustment).

End CalorieModel.

(** [String.prototype.replace] with a one-character pattern: only the first
    occurrence is replaced. *)
Fixpoint replace (pat by_ : code_unit) (s : text) : text :=
  match s with
  | [] => []
  | c :: r => if N.eqb c pat then by_ :: r else c :: replace pat by_ r
  end.

Fixpoint uint_text (d : Decimal.uint) : text :=
  match d with
  | Decimal.Nil => []
  | Decimal.D0 r => 48%N :: uint_text r
  | Decimal.D1 r => 49%N :: uint_text r
  | Decimal.D2 r => 50%N :: uint_text r
  | Decimal.D3 r => 51%N :: uint_text r
  | Decimal.D4 r => 52%N :: uint_text r
  | Decimal.D5 r => 53%N :: uint_text r
  | Decimal.D6 r => 54%N :: uint_text r
  | Decimal.D7 r => 55%N :: uint_text r
  | Decimal.D8 r => 56%N :: uint_text r
  | Decimal.D9 r => 57%N :: uint_text r
  end.

(** The decimal digits of a natural number ([String(n)] for an index or an
    HTTP status). *)
Definition N_text (n : N) : text := uint_text (N.to_uint n).

(** ** Values, errors and completions *)

#[warnings="-register-all"]
Inductive json : Type :=
| JNull
| JBool (b : bool)
| JNumber (n : number)
| JString (s : text)
| JArray (items : list json)
| JObject (members : list (text * json)).

(** A JavaScript value that came out of JSON, or [undefined]. *)
Definition value : Type := option json.
Definition undefined : value := None.

Inductive error : Type :=
| Error (message : text)
| TypeError (message : text)
| SyntaxError (message : text).

Definition message (e : error) : text :=
  match e with Error m | TypeError m | SyntaxError m => m end.

(** The outcome of evaluating an expression: a value, or a thrown error. *)
Inductive completion (A : Type) : Type :=
| Normal (a : A)
| Throw (e : error).
Arguments Normal {A} a.
Arguments Throw {A} e.

(** [try { c } catch (e) { h e }]. *)
Definition try_catch {A} (c : completion A) (h : error -> completion A) : completion A :=
  match c with
  | Normal a => Normal a
  | Throw e => h e
  end.

(** ** Property access and truthiness *)

Inductive key : Type :=
| Name (s : text)
| Index (i : nat).

Definition key_text (k : key) : text :=
  match k with
  | Name s => s
  | Index i => N_text (N.of_nat i)
  end.

(** Of two members with the same name the later one is the property. *)
Fixpoint lookup (k : text) (members : list (text * json)) : value :=
  match members with
  | [] => undefined
  | (k', v) :: rest =>
    match lookup k rest with
    | Some w => Some w
    | None => if text_eqb k k' then Some v else undefined
    end
  end.

(** [v[k]] and [v.k], for the property names the handler reads
    ([candidates], [0], [content], [parts], [text]); none of them is defined
    by a prototype, so only own properties matter.  Reading a property of
    [undefined] or [null] throws. *)
Definition get (v : value) (k : key) : completion value :=
  match v with
  | None | Some JNull =>
    Throw (TypeError (js "Cannot read properties of undefined or null"))
  | Some (JObject members) => Normal (lookup (key_text k) members)
  | Some (JArray items) =>
    match k with
    | Index i => Normal (nth_error items i)
    | Name _ => Normal undefined
    end
  | Some (JString s) =>
    match k with
    | Index i => Normal (option_map (fun c => JString [c]) (nth_error s i))
    | Name _ => Normal undefined
    end
  | Some (JBool _) | Some (JNumber _) => Normal undefined
  end.

(** ToBoolean. *)
Definition truthy (v : value) : bool :=
  match v with
  | None | Some JNull => false
  | Some (JBool b) => b
  | Some (JNumber (S754_zero _)) | Some (JNumber S754_nan) => false
  | Some (JNumber _) => true
  | Some (JString []) => false
  | Some (JString _) => true
  | Some (JArray _) | Some (JObject _) => true
  end.

(** ** The runtime's [JSON.parse]

    The built-in is not code of the repository; it is modelled after the
    JSON grammar (ECMA-404) that ECMA-262 prescribes for it.  An object is
    kept as its members in source order. *)

Module JSON.

Local Open Scope N_scope.

Definition QUOTE : code_unit := 34.
Definition BACKSLASH : code_unit := 92.

Definition is_ws (c : code_unit) : bool :=
  (c =? 32) || (c =? 9) || (c =? 10) || (c =? 13).

Fixpoint skip_ws (s : text) : text :=
  match s with
  | c :: r => if is_ws c then skip_ws r else s
  | [] => []
  end.

Definition digit (c : code_unit) : option Z :=
  if (48 <=? c) && (c <=? 57) then Some (Z.of_N (c - 48)) else None.

Definition hex (c : code_unit) : option N :=
  if (48 <=? c) && (c <=? 57) then Some (c - 48)
  else if (97 <=? c) && (c <=? 102) then Some (c - 87)
  else if (65 <=? c) && (c <=? 70) then Some (c - 55)
  else None.

Definition escape (c : code_unit) : option code_unit :=
  if c =? QUOTE then Some QUOTE
  else if c =? BACKSLASH then Some BACKSLASH
  else if c =? ch "/" then Some (ch "/")
  else if c =? ch "b" then Some 8
  else if c =? ch "f" then Some 12
  else if c =? ch "n" then Some 10
  else if c =? ch "r" then Some 13
  else if c =? ch "t" then Some 9
  else None.

(** The characters of a string after its opening quote, up to and
    including the closing quote. *)
Fixpoint chars (s : text) : option (text * text) :=
  match s with
  | [] => None
  | c :: r =>
    if c =? QUOTE then Some ([], r)
    else if c =? BACKSLASH then
      match r with
      | [] => None
      | e :: r1 =>
        if e =? ch "u" then
          match r1 with
          | h1 :: h2 :: h3 :: h4 :: r2 =>
            match hex h1, hex h2, hex h3, hex h4 with
            | Some a, Some b, Some c', Some d =>
              match chars r2 with
              | Some (t, rest) => Some ((((a * 16 + b) * 16 + c') * 16 + d) :: t, rest)
              | None => None
              end
            | _, _, _, _ => None
            end
          | _ => None
          end
        else
          match escape e with
          | Some u =>
            match chars r1 with
            | Some (t, rest) => Some (u :: t, rest)
            | None => None
            end
          | None => None
          end
      end
    else if c <? 32 then None
    else
      match chars r with
      | Some (t, rest) => Some (c :: t, rest)
      | None => None
      end
  end.

(** A run of decimal digits: its value, its length, and what follows. *)
Fixpoint digits (s : text) (acc : Z) (n : Z) : Z * Z * text :=
  match s with
  | c :: r =>
    match digit c with
    | Some d => digits r (10 * acc + d)%Z (n + 1)%Z
    | None => (acc, n, s)
    end
  | [] => (acc, n, [])
  end.

Definition fraction (s : text) : option (Z * Z * text) :=
  match s with
  | c :: r =>
    if c =? ch "." then
      let '(v, n, rest) := digits r 0%Z 0%Z in
      if (n =? 0)%Z then None else Some (v, n, rest)
    else Some (0%Z, 0%Z, s)
  | [] => Some (0%Z, 0%Z, [])
  end.

Definition exponent (s : text) : option (Z * text) :=
  match s with
  | c :: r =>
    if (c =? ch "e") || (c =? ch "E") then
      let '(neg, r1) :=
        match r with
        | c1 :: r' =>
          if c1 =? ch "-" then (true, r')
          else if c1 =? ch "+" then (false, r') else (false, r)
        | [] => (false, r)
        end in
      let '(v, n, rest) := digits r1 0%Z 0%Z in
      if (n =? 0)%Z then None else Some (if neg then (- v)%Z else v, rest)
    else Some (0%Z, s)
  | [] => Some (0%Z, [])
  end.

Definition number_lit (s : text) : option (number * text) :=
  let '(neg, s1) :=
    match s with
    | c :: r => if c =? ch "-" then (true, r) else (false, s)
    | [] => (false, s)
    end in
  match s1 with
  | [] => None
  | c :: r =>
    match digit c with
    | None => None
    | Some d =>
      let '(ip, _, s2) := if (d =? 0)%Z then (0%Z, 1%Z, r) else digits s1 0%Z 0%Z in
      match fraction s2 with
      | None => None
      | Some (fv, fn, s3) =>
        match exponent s3 with
        | None => None
        | Some (ev, s4) => Some (scale neg (ip * 10 ^ fn + fv)%Z (ev - fn)%Z, s4)
        end
      end
    end
  end.

(** [s] starts with the word [w]: what follows it. *)
Fixpoint word (w s : text) : option text :=
  match w, s with
  | [], _ => Some s
  | a :: w', c :: s' => if a =? c then word w' s' else None
  | _ :: _, [] => None
  end.

(** A value at the start of [s], and what follows it.  The fuel bounds the
    depth of the calls; of two calls in a row at least one consumes a code
    unit, so twice the length of the text is enough. *)
Fixpoint value (fuel : nat) (s : text) : option (json * text) :=
  match fuel with
  | O => None
  | S f =>
    match skip_ws s with
    | [] => None
    | c :: r =>
      if c =? ch "{" then
        match skip_ws r with
        | c1 :: r1 =>
          if c1 =? ch "}" then Some (JObject [], r1)
          else
            match members f r with
            | Some (ms, rest) => Some (JObject ms, rest)
            | None => None
            end
        | [] => None
        end
      else if c =? ch "[" then
        match skip_ws r with
        | c1 :: r1 =>
          if c1 =? ch "]" then Some (JArray [], r1)
          else
            match elements f r with
            | Some (vs, rest) => Some (JArray vs, rest)
            | None => None
            end
        | [] => None
        end
      else if c =? QUOTE then
        match chars r with
        | Some (t, rest) => Some (JString t, rest)
        | None => None
        end
      else
        match word (js "true") (c :: r) with
        | Some rest => Some (JBool true, rest)
        | None =>
          match word (js "false") (c :: r) with
          | Some rest => Some (JBool false, rest)
          | None =>
            match word (js "null") (c :: r) with
            | Some rest => Some (JNull, rest)
            | None =>
              match number_lit (c :: r) with
              | Some (n, rest) => Some (JNumber n, rest)
              | None => None
              end
            end
          end
        end
    end
  end

(** [value (, value)* ]] *)
with elements (fuel : nat) (s : text) : option (list json * text) :=
  match fuel with
  | O => None
  | S f =>
    match value f s with
    | None => None
    | Some (v, rest) =>
      match skip_ws rest with
      | c :: r =>
        if c =? ch "," then
          match elements f r with
          | Some (vs, rest') => Some (v :: vs, rest')
          | None => None
          end
        else if c =? ch "]" then Some ([v], r)
        else None
      | [] => None
      end
    end
  end

(** [string : value (, string : value)* }] *)
with members (fuel : nat) (s : text) : option (list (text * json) * text) :=
  match fuel with
  | O => None
  | S f =>
    match skip_ws s with
    | c :: r =>
      if c =? QUOTE then
        match chars r with
        | None => None
        | Some (k, r1) =>
          match skip_ws r1 with
          | c2 :: r2 =>
            if c2 =? ch ":" then
              match value f r2 with
              | None => None
              | Some (v, rest) =>
                match skip_ws rest with
                | c3 :: r3 =>
                  if c3 =? ch "," then
                    match members f r3 with
                    | Some (ms, rest') => Some ((k, v) :: ms, rest')
                    | None => None
                    end
                  else if c3 =? ch "}" then Some ([(k, v)], r3)
                  else None
                | [] => None
                end
              end
            else None
          | [] => None
          end
        end
      else None
    | [] => None
    end
  end.

(** [JSON.parse(s)]: the value of the whole text, or a [SyntaxError]. *)
Definition parse (s : text) : completion json :=
  match value (2 * List.length s + 2) s with
  | Some (v, rest) =>
    match skip_ws rest with
    | [] => Normal v
    | _ :: _ => Throw (SyntaxError (js "Unexpected non-whitespace character after JSON"))
    end
  | None => Throw (SyntaxError (js "Unexpected token in JSON"))
  end.

End JSON.
(** ** The pattern [/\{[\s\S]*\}/]

    [[\s\S]] matches every code unit.  The matcher follows the backtracking
    semantics of the pattern: the star first takes one more code unit and
    only when the rest cannot be matched that way does it stop and let the
    closing brace match. *)

Definition LBRACE : code_unit := ch "{".
Definition RBRACE : code_unit := ch "}".

(** [[\s\S]*\}] matched at the start of [s]: the matched prefix. *)
Fixpoint star_rbrace (s : text) : option text :=
  match s with
  | [] => None
  | c :: r =>
    match star_rbrace r with
    | Some m => Some (c :: m)
    | None => if N.eqb c RBRACE then Some [c] else None
    end
  end.

(** The whole pattern matched at the start of [s]. *)
Definition match_here (s : text) : option text :=
  match s with
  | c :: r =>
    if N.eqb c LBRACE
    then match star_rbrace r with Some m => Some (c :: m) | None => None end
    else None
  | [] => None
  end.

(** [generatedText.match(/\{[\s\S]*\}/)], element [0] of the result: the
    match at the leftmost position that has one, or [null]. *)
Fixpoint jsonMatch (generatedText : text) : option text :=
  match match_here generatedText with
  | Some m => Some m
  | None =>
    match generatedText with
    | [] => None
    | _ :: r => jsonMatch r
    end
  end.

(** ** Diet plans *)

Module MealEntry.
Record t : Type := { foods : list text; calories : number; description : text }.
End MealEntry.

Module SnackEntry.
Record t : Type := { name : text; foods : list text; calories : number }.
End SnackEntry.

Record DietPlan : Type := {
  dailyCalories : number;
  breakfast : MealEntry.t;
  lunch : MealEntry.t;
  dinner : MealEntry.t;
  snacks : list SnackEntry.t
}.

(** The shape of a diet plan, as the prompt template spells it out (handler
    lines 70-94): [dailyCalories] a number, [breakfast], [lunch] and
    [dinner] objects with [foods] (strings), [calories] (a number) and
    [description] (a string), [snacks] an array of objects with [name],
    [foods] and [calories].  The handler never checks a value against it;
    the reading below is what says whether a value is a diet plan. *)
Module Shape.

Definition as_number (v : value) : option number :=
  match v with Some (JNumber n) => Some n | _ => None end.

Definition as_string (v : value) : option text :=
  match v with Some (JString s) => Some s | _ => None end.

Fixpoint all {A B} (f : A -> option B) (l : list A) : option (list B) :=
  match l with
  | [] => Some []
  | a :: r =>
    match f a, all f r with
    | Some b, Some bs => Some (b :: bs)
    | _, _ => None
    end
  end.

Definition as_strings (v : value) : option (list text) :=
  match v with
  | Some (JArray items) => all (fun i => as_string (Some i)) items
  | _ => None
  end.

Definition meal (v : value) : option MealEntry.t :=
  match v with
  | Some (JObject m) =>
    match as_strings (lookup (js "foods") m),
          as_number (lookup (js "calories") m),
          as_string (lookup (js "description") m) with
    | Some f, Some c, Some d =>
      Some {| MealEntry.foods := f; MealEntry.calories := c; MealEntry.description := d |}
    | _, _, _ => None
    end
  | _ => None
  end.

Definition snack (v : json) : option SnackEntry.t :=
  match v with
  | JObject m =>
    match as_string (lookup (js "name") m),
          as_strings (lookup (js "foods") m),
          as_number (lookup (js "calories") m) with
    | Some n, Some f, Some c =>
      Some {| SnackEntry.name := n; SnackEntry.foods := f; SnackEntry.calories := c |}
    | _, _, _ => None
    end
  | _ => None
  end.

Definition plan (v : json) : option DietPlan :=
  match v with
  | JObject m =>
    match as_number (lookup (js "dailyCalories") m),
          meal (lookup (js "breakfast") m),
          meal (lookup (js "lunch") m),
          meal (lookup (js "dinner") m),
          lookup (js "snacks") m with
    | Some d, Some b, Some l, Some n, Some (JArray items) =>
      match all snack items with
      | Some s =>
        Some {| dailyCalories := d; breakfast := b; lunch := l; dinner := n; snacks := s |}
      | None => None
      end
    | _, _, _, _, _ => None
    end
  | _ => None
  end.

End Shape.

(** ** The parse step (handler lines 129-167) *)

Section Parse.

Local Open Scope js_scope.

Definition strings (l : list string) : json := JArray (List.map (fun s => JString (js s)) l).

(** The object literal of the [catch] block. *)
Definition fallback (targetCalories : number) : json :=
  JObject [
    (js "dailyCalories", JNumber targetCalories);
    (js "breakfast", JObject [
      (js "foods", strings ["2 slices whole grain toast"; "1 medium banana"; "1 tbsp peanut butter"]%string);
      (js "calories", JNumber (Math.round (targetCalories * decimal 25 2)));
      (js "description", JString (js "Balanced breakfast with complex carbs and protein"))]);
    (js "lunch", JObject [
      (js "foods", strings ["Mixed green salad"; "Grilled chicken breast (100g)"; "1 cup quinoa"]%string);
      (js "calories", JNumber (Math.round (targetCalories * decimal 35 2)));
      (js "description", JString (js "Protein-rich lunch with fiber and nutrients"))]);
    (js "dinner", JObject [
      (js "foods", strings ["Grilled fish (150g)"; "Steamed vegetables"; "1 cup brown rice"]%string);
      (js "calories", JNumber (Math.round (targetCalories * decimal 30 2)));
      (js "description", JString (js "Light dinner with lean protein and vegetables"))]);
    (js "snacks", JArray [
      JObject [
        (js "name", JString (js "Greek yogurt with berries"));
        (js "foods", strings ["1 cup Greek yogurt"; "1/2 cup mixed berries"]%string);
        (js "calories", JNumber (Math.round (targetCalories * decimal 10 2)))]])].

(** The body of the inner [try]: [generatedText.match(...)] throws a
    [TypeError] when [generatedText] is not a string, the explicit [throw]
    reports a missing match, and [JSON.parse] throws a [SyntaxError]. *)
Definition extract (generatedText : value) : completion json :=
  match generatedText with
  | Some (JString s) =>
    match jsonMatch s with
    | Some m => JSON.parse m
    | None => Throw (Error (js "No JSON found in response"))
    end
  | None | Some JNull =>
    Throw (TypeError (js "Cannot read properties of undefined or null"))
  | Some _ => Throw (TypeError (js "generatedText.match is not a function"))
  end.

(** The inner [try]/[catch]. *)
Definition parse (generatedText : value) (targetCalories : number) : completion json :=
  try_catch (extract generatedText) (fun parseError => Normal (fallback targetCalories)).

End Parse.

(** ** The provider's envelope (handler lines 122 and 126) *)

Definition and_then {A B} (c : completion A) (k : A -> completion B) : completion B :=
  match c with
  | Normal a => k a
  | Throw e => Throw e
  end.

Declare Scope completion_scope.
Delimit Scope completion_scope with completion.
Notation "x <- c ;; k" := (and_then c (fun x => k))
  (at level 61, c at next level, right associativity) : completion_scope.

Section Envelope.

Local Open Scope completion_scope.

Variable data : json.

(** [!data.candidates || !data.candidates[0] || !data.candidates[0].content] *)
Definition invalid_response : completion bool :=
  candidates <- get (Some data) (Name (js "candidates")) ;;
  if negb (truthy candidates) then Normal true
  else
    first <- get candidates (Index 0) ;;
    if negb (truthy first) then Normal true
    else
      content <- get first (Name (js "content")) ;;
      Normal (negb (truthy content)).

(** [data.candidates[0].content.parts[0].text] *)
Definition generatedText_of : completion value :=
  candidates <- get (Some data) (Name (js "candidates")) ;;
  first <- get candidates (Index 0) ;;
  content <- get first (Name (js "content")) ;;
  parts <- get content (Name (js "parts")) ;;
  part <- get parts (Index 0) ;;
  get part (Name (js "text")).

End Envelope.

(** A reply without the envelope: no [candidates] member, an empty
    [candidates] array, or a first candidate without a [content] member. *)
Inductive envelope_missing : json -> Prop :=
| no_candidates members :
    lookup (js "candidates") members = None -> envelope_missing (JObject members)
| no_candidate members :
    lookup (js "candidates") members = Some (JArray []) -> envelope_missing (JObject members)
| no_content members candidate rest :
    lookup (js "candidates") members = Some (JArray (JObject candidate :: rest)) ->
    lookup (js "content") candidate = None ->
    envelope_missing (JObject members).

(** ** The handler *)

Record DietPlanRequest : Type := {
  goalType : text;
  currentWeight : number;
  targetWeight : number;
  age : number;
  dietPreference : text;
  goalDurationWeeks : number
}.

(** The values interpolated into the prompt template, in the order of their
    first use; the fixed prose of the template is left out. *)
Record Prompt : Type := {
  prompt_age : number;
  prompt_goal : text;
  prompt_currentWeight : number;
  prompt_targetWeight : number;
  prompt_weeks : number;
  prompt_diet : text;
  prompt_calories : number
}.

Record FetchResponse : Type := {
  ok : bool;
  status : N;
  statusText : text;
  response_json : completion json
}.

(** What the handler reads from its surroundings: the environment variable,
    the request, and the provider's answer to a prompt. *)
Record World : Type := {
  GEMINI_API_KEY : option text;
  method : text;
  req_json : completion DietPlanRequest;
  provider : text -> Prompt -> completion FetchResponse
}.

(** The outbound calls made, latest first. *)
Inductive event : Type :=
| Fetch (apiKey : text) (prompt : Prompt).

Definition trace : Type := list event.

(** Computations that may throw and that record their outbound calls. *)
Definition M (A : Type) : Type := trace -> completion A * trace.

Definition ret {A} (a : A) : M A := fun t => (Normal a, t).

Definition bind {A B} (c : M A) (k : A -> M B) : M B :=
  fun t =>
    match c t with
    | (Normal a, t') => k a t'
    | (Throw e, t') => (Throw e, t')
    end.

Definition throw {A} (e : error) : M A := fun t => (Throw e, t).

Definition lift {A} (c : completion A) : M A := fun t => (c, t).

Definition fetch (w : World) (apiKey : text) (prompt : Prompt) : M FetchResponse :=
  fun t => (provider w apiKey prompt, Fetch apiKey prompt :: t).

Declare Scope handler_scope.
Delimit Scope handler_scope with handler.
Notation "x <- c ;; k" := (bind c (fun x => k))
  (at level 61, c at next level, right associativity) : handler_scope.
Notation "c ;; k" := (bind c (fun _ => k))
  (at level 61, right associativity) : handler_scope.

Record Response : Type := {
  response_status : N;
  response_body : value
}.

(** The calorie target of a request. *)
Definition target (r : DietPlanRequest) : number :=
  targetCalories (goalType r) (currentWeight r) (targetWeight r) (age r) (goalDurationWeeks r).

(** The template literal of the prompt. *)
Definition buildPrompt (r : DietPlanRequest) (targetCalories : number) : Prompt :=
  {| prompt_age := age r;
     prompt_goal := replace (ch "_") (ch " ") (goalType r);
     prompt_currentWeight := currentWeight r;
     prompt_targetWeight := targetWeight r;
     prompt_weeks := goalDurationWeeks r;
     prompt_diet := replace (ch "_") (ch " ") (dietPreference r);
     prompt_calories := targetCalories |}.

(** The answer of the outer [catch]. *)
Definition error_envelope (e : error) : Response :=
  {| response_status := 500;
     response_body := Some (JObject [
       (js "error", JString (message e));
       (js "details", JString (js "Failed to generate diet plan"))]) |}.

Section Handler.

Local Open Scope handler_scope.

Variable w : World.

(** The body of the outer [try]. *)
Definition generate : M json :=
  geminiApiKey <-
    match GEMINI_API_KEY w with
    | Some (c :: k) => ret (c :: k)
    | Some [] | None => throw (Error (js "GEMINI_API_KEY not found in environment variables"))
    end ;;
  r <- lift (req_json w) ;;
  let targetCalories := target r in
  let prompt := buildPrompt r targetCalories in
  response <- fetch w geminiApiKey prompt ;;
  (if negb (ok response)
   then throw (Error (js "Gemini API error: " ++ N_text (status response)
                        ++ js " " ++ statusText response))
   else ret tt) ;;
  data <- lift (response_json response) ;;
  invalid <- lift (invalid_response data) ;;
  (if invalid then throw (Error (js "Invalid response from Gemini API")) else ret tt) ;;
  generatedText <- lift (generatedText_of data) ;;
  lift (parse generatedText targetCalories).

(** The function passed to [serve]: the answer, and the outbound calls
    made.  The body of a response is the value given to [JSON.stringify]
    ([None] when the response has no body); the headers, the same on every
    path but for the content type, are left out, and so are the console
    messages. *)
Definition serve : Response * trace :=
  if text_eqb (method w) (js "OPTIONS")
  then ({| response_status := 200; response_body := None |}, [])
  else
    match generate [] with
    | (Normal dietPlan, t) =>
      ({| response_status := 200; response_body := Some dietPlan |}, t)
    | (Throw error, t) => (error_envelope error, t)
    end.

End Handler.

(** ** The calorie formula in the words of the specification *)

Section Spec.

Local Open Scope js_scope.

Definition spec_dailyAdj (currentWeightKg targetWeightKg durationWeeks : number) : number :=
  (Math.abs (targetWeightKg - currentWeightKg) / durationWeeks) * of_Z 3500 / of_Z 7.

Definition spec_baseBMR (ageYears : number) : number :=
  of_Z 1500 + (if gt ageYears (of_Z 30) then of_Z (-100) else of_Z 100).

End Spec.

(** ** The fallback plan in the words of the specification *)

Section SpecFallback.

Local Open Scope js_scope.

Definition spec_fallback (T : number) : DietPlan :=
  {| dailyCalories := T;
     breakfast :=
       {| MealEntry.foods := List.map js
            ["2 slices whole grain toast"; "1 medium banana"; "1 tbsp peanut butter"]%string;
          MealEntry.calories := Math.round (decimal 25 2 * T);
          MealEntry.description := js "Balanced breakfast with complex carbs and protein" |};
     lunch :=
       {| MealEntry.foods := List.map js
            ["Mixed green salad"; "Grilled chicken breast (100g)"; "1 cup quinoa"]%string;
          MealEntry.calories := Math.round (decimal 35 2 * T);
          MealEntry.description := js "Protein-rich lunch with fiber and nutrients" |};
     dinner :=
       {| MealEntry.foods := List.map js
            ["Grilled fish (150g)"; "Steamed vegetables"; "1 cup brown rice"]%string;
          MealEntry.calories := Math.round (decimal 30 2 * T);
          MealEntry.description := js "Light dinner with lean protein and vegetables" |};
     snacks :=
       [ {| SnackEntry.name := js "Greek yogurt with berries";
            SnackEntry.foods := List.map js ["1 cup Greek yogurt"; "1/2 cup mixed berries"]%string;
            SnackEntry.calories := Math.round (decimal 10 2 * T) |} ] |}.

End SpecFallback.

(** ** Sample texts *)

(** A text written with an apostrophe wherever it has a quotation mark. *)
Definition jsq (s : string) : text :=
  List.map (fun c => if N.eqb c 39 then JSON.QUOTE else c) (js s).

Definition sample_request (g : string) (c t a d : Z) : DietPlanRequest :=
  {| goalType := js g; currentWeight := of_Z c; targetWeight := of_Z t; age := of_Z a;
     dietPreference := js "vegetarian"; goalDurationWeeks := of_Z d |}.

(** The provider's envelope around a generated text. *)
Definition envelope (generated : text) : json :=
  JObject [(js "candidates", JArray [
    JObject [(js "content", JObject [
      (js "parts", JArray [JObject [(js "text", JString generated)]])])]])].

Definition respond (data : json) : FetchResponse :=
  {| ok := true; status := 200; statusText := js "OK"; response_json := Normal data |}.

Definition sample_world (key : option text) (r : DietPlanRequest)
    (answer : completion FetchResponse) : World :=
  {| GEMINI_API_KEY := key; method := js "POST"; req_json := Normal r;
     provider := fun _ _ => answer |}.

Definition sample_plan_text : text :=
  jsq ("{'dailyCalories':2000,"
       ++ "'breakfast':{'foods':['oats'],'calories':500,'description':'porridge'},"
       ++ "'lunch':{'foods':['rice','dal'],'calories':700,'description':'thali'},"
       ++ "'dinner':{'foods':['soup'],'calories':600,'description':'light'},"
       ++ "'snacks':[{'name':'fruit','foods':['apple'],'calories':200}]}").

(** * Further definitions *)

(** A whole number, or one of the three values that are not finite. *)
Definition integral_or_not_finite (x : number) : Prop :=
  is_integer x = true \/ x = NaN \/ x = Infinity \/ x = neg_Infinity.

(** ** The goal form ([GoalSetup.handleSubmit], part_001 lines 449-559) *)

Module GoalData.
Record t : Type := {
  currentWeight : text;
  targetWeight : text;
  age : text;
  dietPreference : text;
  goalDurationWeeks : text
}.
End GoalData.

(** The object inserted into [goals]. *)
Module GoalRow.
Record t : Type := {
  user_id : text;
  goal_type : text;
  current_weight : number;
  target_weight : number;
  age : number;
  diet_preference : text;
  goal_duration_weeks : number
}.
End GoalRow.

(** The object inserted into [diet_plans]. *)
Module PlanRow.
Record t : Type := {
  goal_id : text;
  user_id : text;
  daily_calories : value;
  breakfast : value;
  lunch : value;
  dinner : value;
  snacks : value
}.
End PlanRow.

(** What the form does to its surroundings, in the order it does it. *)
Inductive ui_event : Type :=
| SetLoading (b : bool)
| InsertGoal (row : GoalRow.t)
| Invoke (function : text) (body : DietPlanRequest)
| InsertPlan (row : PlanRow.t)
| Toast (title description : text) (destructive : bool)
| Navigate (path : text).

(** The answers of the backend client.  Each call resolves to a pair of
    [data] and [error]; of the goal row that comes back only its [id] is
    read. *)
Record Backend : Type := {
  insert_goal : GoalRow.t -> option text * option error;
  invoke : text -> DietPlanRequest -> value * option error;
  insert_plan : PlanRow.t -> option error
}.

(** Computations of the form: they may throw, and record what they do,
    latest first. *)
Definition UI (A : Type) : Type := list ui_event -> completion A * list ui_event.

Definition ui_ret {A} (a : A) : UI A := fun t => (Normal a, t).

Definition ui_bind {A B} (c : UI A) (k : A -> UI B) : UI B :=
  fun t =>
    match c t with
    | (Normal a, t') => k a t'
    | (Throw e, t') => (Throw e, t')
    end.

Definition ui_lift {A} (c : completion A) : UI A := fun t => (c, t).

Definition emit (e : ui_event) : UI unit := fun t => (Normal tt, e :: t).

(** [if (error) throw error]. *)
Definition throw_if (error : option error) : UI unit :=
  fun t => match error with Some e => (Throw e, t) | None => (Normal tt, t) end.

Declare Scope ui_scope.
Delimit Scope ui_scope with ui.
Notation "x <- c ;; k" := (ui_bind c (fun x => k))
  (at level 61, c at next level, right associativity) : ui_scope.
Notation "c ;; k" := (ui_bind c (fun _ => k))
  (at level 61, right associativity) : ui_scope.

Section GoalSetup.

Local Open Scope ui_scope.

(** The built-ins [parseFloat] and [parseInt]. *)
Variables parseFloat parseInt : text -> number.

Variable backend : Backend.

(** [user] is the signed-in user's [id], if there is one; [goalType] comes
    from the route. *)
Variables (user : option text) (loading : bool) (goalType : text) (formData : GoalData.t).

Definition goal_row (user_id : text) : GoalRow.t :=
  {| GoalRow.user_id := user_id;
     GoalRow.goal_type := goalType;
     GoalRow.current_weight := parseFloat (GoalData.currentWeight formData);
     GoalRow.target_weight := parseFloat (GoalData.targetWeight formData);
     GoalRow.age := parseInt (GoalData.age formData);
     GoalRow.diet_preference := GoalData.dietPreference formData;
     GoalRow.goal_duration_weeks := parseInt (GoalData.goalDurationWeeks formData) |}.

(** The [body] of the invocation, field by field in the order of
    [DietPlanRequest]. *)
Definition request_body : DietPlanRequest :=
  Build_DietPlanRequest
    goalType
    (parseFloat (GoalData.currentWeight formData))
    (parseFloat (GoalData.targetWeight formData))
    (parseInt (GoalData.age formData))
    (GoalData.dietPreference formData)
    (parseInt (GoalData.goalDurationWeeks formData)).

(** The body of the [try]. *)
Definition submit (user_id : text) : UI unit :=
  emit (InsertGoal (goal_row user_id)) ;;
  let '(goalData, goalError) := insert_goal backend (goal_row user_id) in
  throw_if goalError ;;
  emit (Invoke (js "generate-diet-plan") request_body) ;;
  let response := invoke backend (js "generate-diet-plan") request_body in
  throw_if (snd response) ;;
  let dietPlan := fst response in
  goal_id <- ui_lift (match goalData with
                      | Some id => Normal id
                      | None => Throw (TypeError (js "Cannot read properties of null"))
                      end) ;;
  dailyCalories <- ui_lift (get dietPlan (Name (js "dailyCalories"))) ;;
  breakfast <- ui_lift (get dietPlan (Name (js "breakfast"))) ;;
  lunch <- ui_lift (get dietPlan (Name (js "lunch"))) ;;
  dinner <- ui_lift (get dietPlan (Name (js "dinner"))) ;;
  snacks <- ui_lift (get dietPlan (Name (js "snacks"))) ;;
  let row :=
    {| PlanRow.goal_id := goal_id;
       PlanRow.user_id := user_id;
       PlanRow.daily_calories := dailyCalories;
       PlanRow.breakfast := breakfast;
       PlanRow.lunch := lunch;
       PlanRow.dinner := dinner;
       PlanRow.snacks := if truthy snacks then snacks else Some (JArray []) |} in
  emit (InsertPlan row) ;;
  throw_if (insert_plan backend row) ;;
  emit (Toast (js "Success!") (js "Your personalized diet plan has been created.") false) ;;
  emit (Navigate (js "/dashboard/" ++ goal_id)).

Definition any_empty : bool :=
  match GoalData.currentWeight formData, GoalData.targetWeight formData,
        GoalData.age formData, GoalData.dietPreference formData,
        GoalData.goalDurationWeeks formData with
  | _ :: _, _ :: _, _ :: _, _ :: _, _ :: _ => false
  | _, _, _, _, _ => true
  end.

(** [error.message || "Failed to create your goal. Please try again."] *)
Definition description_of (e : error) : text :=
  match message e with
  | [] => js "Failed to create your goal. Please try again."
  | m => m
  end.

(** What one call of [handleSubmit] does, first thing first. *)
Definition handleSubmit : list ui_event :=
  match user with
  | None => []
  | Some user_id =>
    if loading then []
    else if any_empty
    then [Toast (js "Error") (js "Please fill in all fields") true]
    else
      let '(c, t) := submit user_id [SetLoading true] in
      let t' :=
        match c with
        | Normal _ => t
        | Throw e => Toast (js "Error") (description_of e) true :: t
        end in
      List.rev (SetLoading false :: t')
  end.

End GoalSetup.

(** ** The progress page ([History], part_001 lines 24-186) *)

Module Goal.
Record t : Type := {
  id : text;
  goal_type : text;
  current_weight : number;
  target_weight : number;
  goal_duration_weeks : number;
  created_at : text
}.
End Goal.

Module WeightEntry.
Record t : Type := {
  id : text;
  current_weight : number;
  recorded_at : text;
  goal_id : text
}.
End WeightEntry.

Module ProgressData.
Record t : Type := { date : text; weight : number; target : number }.
End ProgressData.

(** [Array.prototype.sort] with a comparison function: the sort is stable,
    and [x] goes before [y] when [comparefn x y] is negative.  Elements are
    inserted one after the other, each behind the ones it does not
    precede. *)
Section Sort.

Context {A : Type}.
Variable comparefn : A -> A -> number.

Fixpoint insert (x : A) (l : list A) : list A :=
  match l with
  | [] => [x]
  | y :: l' => if is_negative (comparefn x y) then x :: y :: l' else y :: insert x l'
  end.

Definition sort (l : list A) : list A := List.fold_left (fun acc x => insert x acc) l [].

End Sort.

(** [Math.min] of two numbers: NaN when one of them is, and [-0] below
    [+0]. *)
Definition Math_min (x y : number) : number :=
  match SFcompare x y with
  | None => NaN
  | Some Lt => x
  | Some Gt => y
  | Some Eq => match y with S754_zero true => y | _ => x end
  end.

Section History.

Local Open Scope js_scope.

(** [new Date(s).getTime()] and [new Date(s).toLocaleDateString('en-US',
    { month: 'short', day: 'numeric' })]. *)
Variable getTime : text -> number.
Variable toLocaleDateString : text -> text.

Variable selectedGoal : option Goal.t.
Variable weightHistory : list WeightEntry.t.

Definition of_goal (g : Goal.t) (entry : WeightEntry.t) : bool :=
  text_eqb (WeightEntry.goal_id entry) (Goal.id g).

Definition getProgressData : list ProgressData.t :=
  match selectedGoal with
  | None => []
  | Some g =>
    let goalHistory :=
      sort (fun a b => getTime (WeightEntry.recorded_at a) - getTime (WeightEntry.recorded_at b))
           (List.filter (of_goal g) weightHistory) in
    List.map (fun entry =>
                {| ProgressData.date := toLocaleDateString (WeightEntry.recorded_at entry);
                   ProgressData.weight := WeightEntry.current_weight entry;
                   ProgressData.target := Goal.target_weight g |})
             goalHistory
  end.

Definition calculateProgress : number :=
  match selectedGoal with
  | None => of_Z 0
  | Some g =>
    match sort (fun a b => getTime (WeightEntry.recorded_at b) - getTime (WeightEntry.recorded_at a))
               (List.filter (of_goal g) weightHistory) with
    | [] => of_Z 0
    | latestWeight :: _ =>
      let totalWeightToChange := Math.abs (Goal.target_weight g - Goal.current_weight g) in
      let weightChanged :=
        Math.abs (WeightEntry.current_weight latestWeight - Goal.current_weight g) in
      Math_min (of_Z 100) ((weightChanged / totalWeightToChange) * of_Z 100)
    end
  end.

End History.

(** ** Sample inputs of the form *)

Definition sample_form : GoalData.t :=
  {| GoalData.currentWeight := js "80";
     GoalData.targetWeight := js "70";
     GoalData.age := js "30";
     GoalData.dietPreference := js "vegetarian";
     GoalData.goalDurationWeeks := js "10" |}.

(** The value of a text of decimal digits, on which [parseFloat] and
    [parseInt] agree. *)
Definition digits_number (s : text) : number := of_Z (fst (fst (JSON.digits s 0 0))).

Definition sample_backend (goal : option text * option error)
    (answer : value * option error) (plan : option error) : Backend :=
  {| insert_goal := fun _ => goal;
     invoke := fun _ _ => answer;
     insert_plan := fun _ => plan |}.

Definition sample_submit (goal : option text * option error)
    (answer : value * option error) (plan : option error) : list ui_event :=
  handleSubmit digits_number digits_number (sample_backend goal answer plan)
    (Some (js "user-1")) false (js "weight_loss") sample_form.

(** * Properties *)

(** ** Sample evaluations *)

(** [Math.round] at ties, at negative arguments and next to an integer. *)
Example round_samples :
  List.map Math.round
    [decimal 25 1; decimal (-25) 1; decimal (-5) 1; decimal 5 1; decimal 49 2;
     decimal (-26) 1; of_Z 1100; decimal 81899999 4]
  = [of_Z 3; of_Z (-2); S754_zero true; of_Z 1; S754_zero false;
     of_Z (-3); of_Z 1100; of_Z 8190].
Proof. vm_compute. reflexivity. Qed.

(** The literals of the handler are the doubles 0x3FD0000000000000,
    0x3FD6666666666666, 0x3FD3333333333333 and 0x3FB999999999999A. *)
Example literal_samples :
  decimal 25 2 = S754_finite false 4503599627370496 (-54) /\
  decimal 35 2 = S754_finite false 6305039478318694 (-54) /\
  decimal 30 2 = S754_finite false 5404319552844595 (-54) /\
  decimal 10 2 = S754_finite false 7205759403792794 (-56) /\
  of_Z 1100 = S754_finite false 4837851162214400 (-42).
Proof. vm_compute. repeat split. Qed.

(** ** Facts on binary64 arithmetic *)

Section FloatFacts.

Variables (p x : Z).

Lemma abs_binary_round_aux (s : bool) m e l :
  SFabs (binary_round_aux p x s m e l) = SFabs (binary_round_aux p x false m e l).
Proof.
  unfold binary_round_aux.
  destruct (shr_fexp p x m e l) as [mrs e'].
  destruct (shr_fexp p x _ e' loc_Exact) as [mrs' e''].
  destruct (shr_m mrs'); [reflexivity | | reflexivity].
  destruct (e'' <=? x - p); reflexivity.
Qed.

Lemma abs_binary_round (s : bool) m e :
  SFabs (binary_round p x s m e) = SFabs (binary_round p x false m e).
Proof.
  unfold binary_round.
  destruct (shl_align m e _) as [mz ez].
  apply abs_binary_round_aux.
Qed.

Lemma abs_binary_normalize_opp m e :
  SFabs (binary_normalize p x (- m) e false) = SFabs (binary_normalize p x m e false).
Proof.
  destruct m as [|q|q]; simpl; [reflexivity | | symmetry]; apply abs_binary_round.
Qed.

(** [|a - b| = |b - a|] for all doubles, NaN and infinities included. *)
Lemma abs_sub_swap (a b : spec_float) :
  SFabs (SFsub p x a b) = SFabs (SFsub p x b a).
Proof.
  destruct a as [sa|sa| |sa ma ea], b as [sb|sb| |sb mb eb];
    try (destruct sa, sb; reflexivity); try reflexivity.
  unfold SFsub.
  rewrite (Z.min_comm eb ea).
  rewrite <- abs_binary_normalize_opp.
  f_equal. f_equal. lia.
Qed.

Lemma mul_swap (a b : spec_float) : SFmul p x a b = SFmul p x b a.
Proof.
  destruct a as [sa|sa| |sa ma ea], b as [sb|sb| |sb mb eb]; simpl;
    try rewrite (xorb_comm sa sb); try reflexivity.
  now rewrite (Pos.mul_comm ma mb), (Z.add_comm ea eb).
Qed.

End FloatFacts.

(** [JSON.parse] on small texts, valid and invalid. *)
Example parse_samples :
  JSON.parse (jsq "{}") = Normal (JObject []) /\
  JSON.parse (jsq " {'a' : [1, -0, true, null, 'x\n'], 'a' : {} } ")
    = Normal (JObject [(js "a", JArray [JNumber (of_Z 1); JNumber (S754_zero true);
                                        JBool true; JNull; JString [120; 10]%N]);
                       (js "a", JObject [])]) /\
  JSON.parse (jsq "0.35") = Normal (JNumber (decimal 35 2)) /\
  JSON.parse (jsq "[[[[1,[2,{'a':[{}]}]]]]]")
    = Normal (JArray [JArray [JArray [JArray [JNumber (of_Z 1);
        JArray [JNumber (of_Z 2); JObject [(js "a", JArray [JObject []])]]]]]]) /\
  JSON.parse (jsq "1e400") = Normal (JNumber Infinity) /\
  (forall s, In s [jsq "{'a':1,}"; jsq "{} {}"; jsq "[01]"; jsq "1."; jsq "{a:1}"; jsq "[1,2"] ->
             exists e, JSON.parse s = Throw e).
Proof.
  repeat split; try (vm_compute; reflexivity).
  intros s H. simpl in H.
  repeat (destruct H as [<- | H]; [eexists; vm_compute; reflexivity | ]).
  destruct H.
Qed.

(** The pattern on texts with several, misplaced or no braces. *)
Example jsonMatch_samples :
  jsonMatch (js "ab{cd}e}f{g") = Some (js "{cd}e}") /\
  jsonMatch (js "} {") = None /\
  jsonMatch (js "{ {}") = Some (js "{ {}") /\
  jsonMatch (js "no braces") = None.
Proof. vm_compute. repeat split. Qed.

(** ** Strings *)

Lemma text_eqb_eq (a b : text) : text_eqb a b = true <-> a = b.
Proof.
  revert b. induction a as [|x a IH]; destruct b as [|y b]; simpl;
    try (split; [discriminate | discriminate]); [tauto | ].
  rewrite andb_true_iff, N.eqb_eq, IH.
  split; [intros [-> ->]; reflexivity | intros [= -> ->]; auto].
Qed.

Lemma text_eqb_neq (a b : text) : text_eqb a b = false <-> a <> b.
Proof.
  rewrite <- text_eqb_eq. destruct (text_eqb a b); split; congruence.
Qed.

(** ** The extracted span *)

Lemma star_rbrace_none (s : text) : star_rbrace s = None <-> ~ In RBRACE s.
Proof.
  induction s as [|c r IH]; simpl; [tauto | ].
  destruct (star_rbrace r) as [m|].
  - split; [discriminate | ]. intros H. exfalso. apply H. right.
    destruct (in_dec N.eq_dec RBRACE r) as [i|n]; [exact i | ].
    apply IH in n. discriminate.
  - destruct (N.eqb_spec c RBRACE) as [->|ne].
    + split; [discriminate | intros H; exfalso; apply H; now left].
    + split; [ | reflexivity]. intros _ [e|i]; [congruence | ].
      now apply (proj1 IH).
Qed.

(** [[\s\S]*\}] takes everything up to the last closing brace. *)
Lemma star_rbrace_some (s m : text) :
  star_rbrace s = Some m <->
  exists mid post, s = mid ++ RBRACE :: post /\ ~ In RBRACE post /\ m = mid ++ [RBRACE].
Proof.
  split.
  - revert m. induction s as [|c r IH]; simpl; intros m H; [discriminate | ].
    destruct (star_rbrace r) as [m'|] eqn:E.
    + injection H as <-. destruct (IH m' eq_refl) as (mid & post & -> & np & ->).
      exists (c :: mid), post. auto.
    + destruct (N.eqb_spec c RBRACE) as [->|ne]; [ | discriminate].
      injection H as <-. exists [], r. split; [reflexivity | ].
      split; [now apply star_rbrace_none | reflexivity].
  - intros (mid & post & -> & np & ->).
    induction mid as [|c mid IH]; cbn [app star_rbrace].
    + apply star_rbrace_none in np. rewrite np.
      now rewrite N.eqb_refl.
    + now rewrite IH.
Qed.

Lemma match_here_some (s m : text) :
  match_here s = Some m <->
  exists mid post, s = LBRACE :: mid ++ RBRACE :: post /\ ~ In RBRACE post
                   /\ m = LBRACE :: mid ++ [RBRACE].
Proof.
  destruct s as [|c r]; simpl.
  - split; [discriminate | intros (? & ? & ? & _); discriminate].
  - destruct (N.eqb_spec c LBRACE) as [->|ne].
    + destruct (star_rbrace r) as [m'|] eqn:E.
      * apply star_rbrace_some in E. destruct E as (mid & post & -> & np & ->).
        split.
        -- intros [= <-]. exists mid, post. auto.
        -- intros (mid2 & post2 & e & np2 & ->). injection e as e.
           assert (H : star_rbrace (mid ++ RBRACE :: post) = Some (mid2 ++ [RBRACE])).
           { rewrite e. apply star_rbrace_some. exists mid2, post2. auto. }
           assert (H' : star_rbrace (mid ++ RBRACE :: post) = Some (mid ++ [RBRACE])).
           { apply star_rbrace_some. exists mid, post. auto. }
           rewrite H in H'. injection H' as H'. now rewrite H'.
      * split; [discriminate | ].
        intros (mid & post & e & np & _). injection e as ->.
        apply star_rbrace_none in E. exfalso. apply E.
        apply in_or_app. right. now left.
    + split; [discriminate | ]. intros (? & ? & e & _). congruence.
Qed.

Lemma match_here_none_lbrace (r : text) :
  match_here (LBRACE :: r) = None -> ~ In RBRACE r.
Proof.
  cbn [match_here]. rewrite N.eqb_refl.
  destruct (star_rbrace r) eqn:E; [discriminate | ].
  intros _. now apply star_rbrace_none.
Qed.

Lemma jsonMatch_cons (c : code_unit) (r : text) :
  jsonMatch (c :: r) =
  match match_here (c :: r) with Some m => Some m | None => jsonMatch r end.
Proof. reflexivity. Qed.

(** The match runs from the first opening brace of the text to its last
    closing brace. *)
Lemma jsonMatch_some (s m : text) :
  jsonMatch s = Some m <->
  exists pre mid post,
    s = pre ++ LBRACE :: mid ++ RBRACE :: post /\
    ~ In LBRACE pre /\ ~ In RBRACE post /\ m = LBRACE :: mid ++ [RBRACE].
Proof.
  split.
  - revert m. induction s as [|c r IH]; intros m H; [discriminate | ].
    rewrite jsonMatch_cons in H.
    destruct (match_here (c :: r)) as [m'|] eqn:E.
    + injection H as <-. apply match_here_some in E.
      destruct E as (mid & post & e & np & ->).
      exists [], mid, post. simpl. auto.
    + destruct (IH m H) as (pre & mid & post & -> & nl & np & ->).
      exists (c :: pre), mid, post. repeat split; auto.
      intros [->|i]; [ | now apply nl].
      apply match_here_none_lbrace in E. apply E.
      apply in_or_app. right. right. apply in_or_app. right. now left.
  - intros (pre & mid & post & -> & nl & np & ->).
    induction pre as [|c pre IH].
    + assert (H : match_here (LBRACE :: mid ++ RBRACE :: post)
                  = Some (LBRACE :: mid ++ [RBRACE])).
      { apply match_here_some. exists mid, post. auto. }
      simpl app. rewrite jsonMatch_cons, H. reflexivity.
    + simpl app. rewrite jsonMatch_cons.
      assert (ne : c <> LBRACE) by (intros ->; apply nl; now left).
      assert (H : match_here (c :: pre ++ LBRACE :: mid ++ RBRACE :: post) = None).
      { simpl. destruct (N.eqb_spec c LBRACE); [contradiction | reflexivity]. }
      rewrite H. apply IH. intros i. apply nl. now right.
Qed.

(** There is no match exactly when no opening brace is followed by a
    closing one. *)
Lemma jsonMatch_none (s : text) :
  jsonMatch s = None <->
  forall pre mid post, s <> pre ++ LBRACE :: mid ++ RBRACE :: post.
Proof.
  split.
  - induction s as [|c r IH]; intros H pre mid post e.
    + destruct pre; discriminate.
    + rewrite jsonMatch_cons in H.
      destruct (match_here (c :: r)) eqn:E; [discriminate | ].
      destruct pre as [|c' pre]; simpl in e; injection e as -> ->.
      * apply match_here_none_lbrace in E. apply E.
        apply in_or_app. right. now left.
      * now apply (IH H pre mid post).
  - intros H. destruct (jsonMatch s) as [m|] eqn:E; [ | reflexivity].
    apply jsonMatch_some in E. destruct E as (pre & mid & post & e & _).
    now apply H in e.
Qed.

(** ** The calorie target *)

Lemma baseBMR_values (a : number) :
  baseBMR a = if gt a (of_Z 30) then of_Z 1400 else of_Z 1600.
Proof. unfold baseBMR. destruct (gt a (of_Z 30)); vm_compute; reflexivity. Qed.

(** C1. For a duration of at least one week the target is
    [round (baseBMR - dailyAdj)] for the goal type [weight_loss] and
    [round (baseBMR + dailyAdj)] for every other goal type, with
    [dailyAdj = (|targetWeight - currentWeight| / durationWeeks) * 3500 / 7]
    and [baseBMR = 1500 + (-100 if age > 30, else +100)]. *)
Theorem computeTargetCalories_formula (g : text) (c t a d : number) :
  ge d (of_Z 1) = true ->
  (g = js "weight_loss" ->
   targetCalories g c t a d = Math.round (sub (spec_baseBMR a) (spec_dailyAdj c t d))) /\
  (g <> js "weight_loss" ->
   targetCalories g c t a d = Math.round (add (spec_baseBMR a) (spec_dailyAdj c t d))).
Proof.
  intros _. unfold targetCalories. split; intros H.
  - apply text_eqb_eq in H. rewrite H. reflexivity.
  - apply text_eqb_neq in H. rewrite H. reflexivity.
Qed.

Lemma computeTargetCalories_formula_witness :
  ge (of_Z 12) (of_Z 1) = true /\
  targetCalories (js "weight_loss") (of_Z 82) (of_Z 75) (of_Z 41) (of_Z 12)
  = Math.round (sub (spec_baseBMR (of_Z 41)) (spec_dailyAdj (of_Z 82) (of_Z 75) (of_Z 12))).
Proof.
  split; [reflexivity | ].
  apply (computeTargetCalories_formula (js "weight_loss") (of_Z 82) (of_Z 75) (of_Z 41) (of_Z 12));
    reflexivity.
Defined.

(** C7. The two worked examples: age 30 is not above 30 and gets the base
    1600, so losing 10 kg in 10 weeks gives 1100; age 35 gets the base 1400,
    so gaining 10 kg in 20 weeks gives 1650. *)
Theorem computeTargetCalories_examples :
  targetCalories (js "weight_loss") (of_Z 80) (of_Z 70) (of_Z 30) (of_Z 10) = of_Z 1100 /\
  targetCalories (js "weight_gain") (of_Z 60) (of_Z 70) (of_Z 35) (of_Z 20) = of_Z 1650 /\
  baseBMR (of_Z 30) = of_Z 1600 /\ baseBMR (of_Z 35) = of_Z 1400 /\
  dailyCalorieAdjustment (of_Z 80) (of_Z 70) (of_Z 10) = of_Z 500 /\
  dailyCalorieAdjustment (of_Z 60) (of_Z 70) (of_Z 20) = of_Z 250.
Proof. vm_compute. repeat split. Qed.

(** C9. Swapping the current and the target weight does not change the
    target: only the absolute difference of the two is used. *)
Theorem computeTargetCalories_symmetric (g : text) (c t a d : number) :
  ge d (of_Z 1) = true ->
  targetCalories g c t a d = targetCalories g t c a d.
Proof.
  intros _.
  unfold targetCalories, dailyCalorieAdjustment, weeklyCalorieAdjustment,
    weeklyWeightChange, weightDifference, Math.abs, sub.
  now rewrite (abs_sub_swap prec emax t c).
Qed.

Lemma computeTargetCalories_symmetric_witness :
  ge (of_Z 8) (of_Z 1) = true /\
  targetCalories (js "weight_gain") (decimal 615 1) (of_Z 68) (of_Z 27) (of_Z 8)
  = targetCalories (js "weight_gain") (of_Z 68) (decimal 615 1) (of_Z 27) (of_Z 8).
Proof.
  split; [reflexivity | ].
  apply (computeTargetCalories_symmetric (js "weight_gain") (decimal 615 1) (of_Z 68)
           (of_Z 27) (of_Z 8)).
  reflexivity.
Defined.

(** Division by a zero never throws: it yields an infinity, or NaN for a
    dividend that is zero or NaN. *)
Lemma div_zero (x : number) (s : bool) :
  div (Math.abs x) (S754_zero s) =
  match x with
  | S754_zero _ | S754_nan => NaN
  | _ => S754_infinity s
  end.
Proof. destruct x; reflexivity. Qed.

Lemma dailyCalorieAdjustment_zero_weeks (c t : number) (s : bool) :
  dailyCalorieAdjustment c t (S754_zero s) =
  match sub t c with
  | S754_zero _ | S754_nan => NaN
  | _ => S754_infinity s
  end.
Proof.
  unfold dailyCalorieAdjustment, weeklyCalorieAdjustment, weeklyWeightChange,
    weightDifference, totalWeeks.
  rewrite div_zero.
  destruct (sub t c), s; reflexivity.
Qed.

(** The same facts at the sample inputs used below. *)
Example zero_weeks_samples :
  targetCalories (js "weight_loss") (of_Z 80) (of_Z 70) (of_Z 30) (of_Z 0) = neg_Infinity /\
  targetCalories (js "weight_gain") (of_Z 60) (of_Z 70) (of_Z 35) (of_Z 0) = Infinity /\
  targetCalories (js "weight_loss") (of_Z 70) (of_Z 70) (of_Z 30) (of_Z 0) = NaN.
Proof. vm_compute. repeat split. Qed.

Lemma targetCalories_zero_weeks (g : text) (c t a : number) (s : bool) :
  targetCalories g c t a (S754_zero s) =
  match sub t c with
  | S754_zero _ | S754_nan => NaN
  | _ => if text_eqb g (js "weight_loss") then S754_infinity (negb s) else S754_infinity s
  end.
Proof.
  unfold targetCalories.
  rewrite dailyCalorieAdjustment_zero_weeks, baseBMR_values.
  destruct (sub t c), (text_eqb g (js "weight_loss")), (gt a (of_Z 30)), s; reflexivity.
Qed.

(** ** The parse step *)

Lemma fallback_shape (T : number) : Shape.plan (fallback T) = Some (spec_fallback T).
Proof.
  unfold spec_fallback, mul.
  rewrite (mul_swap prec emax (decimal 25 2) T), (mul_swap prec emax (decimal 35 2) T),
    (mul_swap prec emax (decimal 30 2) T), (mul_swap prec emax (decimal 10 2) T).
  reflexivity.
Qed.

Lemma parse_throw (generatedText : value) (T : number) (e : error) :
  extract generatedText = Throw e -> parse generatedText T = Normal (fallback T).
Proof. unfold parse. now intros ->. Qed.

(** C2, as stated, fails: a reply whose braces hold valid JSON of another
    shape is returned as it is, and it is not a diet plan. *)
Lemma parse_not_always_plan :
  parse (Some (JString (js "Plan: { }"))) (of_Z 1100) = Normal (JObject []) /\
  Shape.plan (JObject []) = None.
Proof. vm_compute. split; reflexivity. Qed.

(** C2, as the handler behaves: the parse step always completes normally.
    Whatever the inner [try] throws (no string, no match, a syntax error) is
    caught and replaced by the fallback plan, which is a diet plan; a span
    that parses is returned as parsed. *)
Theorem parse_never_throws (generatedText : value) (T : number) :
  exists v, parse generatedText T = Normal v /\
    (forall e, extract generatedText = Throw e ->
               v = fallback T /\ Shape.plan v = Some (spec_fallback T)) /\
    (forall u, extract generatedText = Normal u -> v = u).
Proof.
  unfold parse. destruct (extract generatedText) as [u|e]; simpl.
  - exists u. split; [reflexivity | split].
    + intros e H. discriminate H.
    + intros u' H. now injection H.
  - exists (fallback T). split; [reflexivity | split].
    + intros _ _. split; [reflexivity | apply fallback_shape].
    + intros u H. discriminate H.
Qed.

Lemma parse_never_throws_witness :
  exists v, parse (Some (JString (js "The plan will follow."))) (of_Z 1650) = Normal v /\
            v = fallback (of_Z 1650) /\
            Shape.plan v = Some (spec_fallback (of_Z 1650)).
Proof.
  destruct (parse_never_throws (Some (JString (js "The plan will follow."))) (of_Z 1650))
    as (v & Hp & Hf & _).
  exists v. split; [exact Hp | ].
  apply (Hf (Error (js "No JSON found in response"))). reflexivity.
Defined.

(** C4, as stated, fails: the span below is valid JSON without the shape of
    a diet plan, and it is returned instead of the fallback plan. *)
Lemma parse_keeps_other_shapes :
  let s := jsq "Sure! {'dailyCalories': 2000, 'meals': []}" in
  let v := JObject [(js "dailyCalories", JNumber (of_Z 2000)); (js "meals", JArray [])] in
  jsonMatch s = Some (jsq "{'dailyCalories': 2000, 'meals': []}") /\
  JSON.parse (jsq "{'dailyCalories': 2000, 'meals': []}") = Normal v /\
  Shape.plan v = None /\
  parse (Some (JString s)) (of_Z 2000) = Normal v /\
  v <> fallback (of_Z 2000).
Proof. vm_compute. repeat split. discriminate. Qed.

(** C4, as the handler behaves: the fallback plan is returned when the text
    has no brace-delimited span or when [JSON.parse] rejects the span; a span
    that parses is returned as parsed, whatever its shape. *)
Theorem parse_fallback_cases (s : text) (T : number) :
  (jsonMatch s = None -> parse (Some (JString s)) T = Normal (fallback T)) /\
  (forall m e, jsonMatch s = Some m -> JSON.parse m = Throw e ->
               parse (Some (JString s)) T = Normal (fallback T)) /\
  (forall m v, jsonMatch s = Some m -> JSON.parse m = Normal v ->
               parse (Some (JString s)) T = Normal v).
Proof.
  unfold parse, extract. repeat split.
  - now intros ->.
  - now intros m e -> ->.
  - now intros m v -> ->.
Qed.

Lemma parse_fallback_cases_witness :
  parse (Some (JString (js "The plan will follow."))) (of_Z 1650) = Normal (fallback (of_Z 1650)) /\
  parse (Some (JString (js "Plan: {breakfast: oats}"))) (of_Z 1650) = Normal (fallback (of_Z 1650)) /\
  parse (Some (JString (jsq "Plan: {'breakfast': 'oats'}"))) (of_Z 1650)
  = Normal (JObject [(js "breakfast", JString (js "oats"))]).
Proof.
  split; [ | split].
  - apply (proj1 (parse_fallback_cases (js "The plan will follow.") (of_Z 1650))).
    reflexivity.
  - apply (proj1 (proj2 (parse_fallback_cases (js "Plan: {breakfast: oats}") (of_Z 1650)))
             (js "{breakfast: oats}") (SyntaxError (js "Unexpected token in JSON")));
      reflexivity.
  - apply (proj2 (proj2 (parse_fallback_cases (jsq "Plan: {'breakfast': 'oats'}") (of_Z 1650)))
             (jsq "{'breakfast': 'oats'}")); reflexivity.
Defined.

(** C5, as stated, fails: the text below contains a valid JSON object with
    the shape of a diet plan, but the span taken runs on to the last closing
    brace of the prose, is rejected, and the fallback plan is returned. *)
Lemma parse_misses_contained_plan :
  let s := sample_plan_text ++ js " Enjoy {your} meals!" in
  (exists v p, JSON.parse sample_plan_text = Normal v /\ Shape.plan v = Some p /\
               dailyCalories p = of_Z 2000) /\
  jsonMatch s = Some (sample_plan_text ++ js " Enjoy {your}") /\
  parse (Some (JString s)) (of_Z 1100) = Normal (fallback (of_Z 1100)) /\
  (exists p, Shape.plan (fallback (of_Z 1100)) = Some p /\ dailyCalories p = of_Z 1100) /\
  of_Z 1100 <> of_Z 2000.
Proof.
  cbv zeta. split; [ | split; [ | split; [ | split]]].
  - eexists. eexists. vm_compute. repeat split.
  - vm_compute. reflexivity.
  - vm_compute. reflexivity.
  - eexists. rewrite fallback_shape. split; reflexivity.
  - vm_compute. discriminate.
Qed.

(** C5, as the handler behaves: the span taken is exactly the one from the
    first opening brace to the last closing brace of the text (none when no
    closing brace follows an opening one), and when that span is valid JSON
    the parse step returns exactly the value [JSON.parse] gives for it. *)
Theorem extraction_first_to_last (s : text) :
  (forall m, jsonMatch s = Some m <->
     exists pre mid post,
       s = pre ++ LBRACE :: mid ++ RBRACE :: post /\
       ~ In LBRACE pre /\ ~ In RBRACE post /\ m = LBRACE :: mid ++ [RBRACE]) /\
  (jsonMatch s = None <-> forall pre mid post, s <> pre ++ LBRACE :: mid ++ RBRACE :: post) /\
  (forall pre mid post v T,
     s = pre ++ LBRACE :: mid ++ RBRACE :: post ->
     ~ In LBRACE pre -> ~ In RBRACE post ->
     JSON.parse (LBRACE :: mid ++ [RBRACE]) = Normal v ->
     parse (Some (JString s)) T = Normal v).
Proof.
  split; [ | split].
  - intros m. apply jsonMatch_some.
  - apply jsonMatch_none.
  - intros pre mid post v T e nl nr H.
    assert (E : jsonMatch s = Some (LBRACE :: mid ++ [RBRACE])).
    { apply jsonMatch_some. exists pre, mid, post. auto. }
    unfold parse, extract. now rewrite E, H.
Qed.

Lemma extraction_first_to_last_witness :
  jsonMatch (js "ab{cd}e}f{g") = Some (js "{cd}e}") /\
  parse (Some (JString (jsq "Plan: {'dailyCalories': 1800} Enjoy!"))) (of_Z 1100)
  = Normal (JObject [(js "dailyCalories", JNumber (of_Z 1800))]).
Proof.
  split.
  - apply (proj1 (extraction_first_to_last (js "ab{cd}e}f{g"))).
    exists (js "ab"), (js "cd}e"), (js "f{g").
    split; [reflexivity | ]. split; [ | split; [ | reflexivity]];
      intros H; vm_compute in H; intuition discriminate.
  - apply (proj2 (proj2 (extraction_first_to_last (jsq "Plan: {'dailyCalories': 1800} Enjoy!")))
             (js "Plan: ") (jsq "'dailyCalories': 1800") (js " Enjoy!")).
    + reflexivity.
    + intros H; vm_compute in H; intuition discriminate.
    + intros H; vm_compute in H; intuition discriminate.
    + vm_compute. reflexivity.
Defined.

(** ** The handler *)

Lemma method_not_options (w : World) :
  method w <> js "OPTIONS" -> text_eqb (method w) (js "OPTIONS") = false.
Proof. intros H. now apply text_eqb_neq. Qed.

Lemma serve_without_key (w : World) :
  method w <> js "OPTIONS" ->
  GEMINI_API_KEY w = None \/ GEMINI_API_KEY w = Some [] ->
  serve w = (error_envelope (Error (js "GEMINI_API_KEY not found in environment variables")), []).
Proof.
  intros Hm Hk. unfold serve. rewrite (method_not_options w Hm).
  unfold generate, bind, throw. destruct Hk as [-> | ->]; reflexivity.
Qed.

(** Once the key and the request are there, exactly one call is made, and
    the answer depends on the provider's reply alone. *)
Lemma generate_with_key (w : World) (key : text) (r : DietPlanRequest) :
  GEMINI_API_KEY w = Some key -> key <> [] -> req_json w = Normal r ->
  generate w [] =
  (match provider w key (buildPrompt r (target r)) with
   | Throw e => Throw e
   | Normal response =>
     if negb (ok response)
     then Throw (Error (js "Gemini API error: " ++ N_text (status response)
                          ++ js " " ++ statusText response))
     else
       match response_json response with
       | Throw e => Throw e
       | Normal data =>
         match invalid_response data with
         | Throw e => Throw e
         | Normal true => Throw (Error (js "Invalid response from Gemini API"))
         | Normal false =>
           match generatedText_of data with
           | Throw e => Throw e
           | Normal generatedText => parse generatedText (target r)
           end
         end
       end
   end, [Fetch key (buildPrompt r (target r))]).
Proof.
  intros Hk Hne Hr. unfold generate, bind, lift, fetch, throw, ret.
  rewrite Hk. destruct key as [|c k]; [contradiction | ].
  rewrite Hr.
  destruct (provider w (c :: k) (buildPrompt r (target r))) as [response|e]; [ | reflexivity].
  destruct (ok response); [ | reflexivity]. cbn [negb].
  destruct (response_json response) as [data|e]; [ | reflexivity].
  destruct (invalid_response data) as [[|]|e]; try reflexivity.
  destruct (generatedText_of data) as [generatedText|e]; reflexivity.
Qed.

Lemma envelope_missing_invalid (data : json) :
  envelope_missing data -> invalid_response data = Normal true.
Proof.
  intros [m H | m H | m c rest H H']; unfold invalid_response; cbn [get key_text and_then];
    rewrite H; cbn [truthy negb get nth_error key_text and_then]; try reflexivity.
  now rewrite H'.
Qed.

Lemma error_envelope_no_plan (e : error) :
  response_status (error_envelope e) = 500%N /\
  response_body (error_envelope e)
  = Some (JObject [(js "error", JString (message e));
                   (js "details", JString (js "Failed to generate diet plan"))]) /\
  (forall b, response_body (error_envelope e) = Some b -> Shape.plan b = None).
Proof.
  repeat split. intros b [= <-]. reflexivity.
Qed.

(** C6. Without the credential the handler fails before any call is made;
    with it, a reply that is not [ok], or one without the candidates/content
    envelope, fails after the one call.  Each failure is answered by the
    envelope [{error, details}] with status 500, which carries no diet
    plan. *)
Theorem generate_failures (w : World) :
  method w <> js "OPTIONS" ->
  (GEMINI_API_KEY w = None \/ GEMINI_API_KEY w = Some [] ->
   serve w = (error_envelope (Error (js "GEMINI_API_KEY not found in environment variables")),
              [])) /\
  (forall key r response,
     GEMINI_API_KEY w = Some key -> key <> [] -> req_json w = Normal r ->
     provider w key (buildPrompt r (target r)) = Normal response ->
     (ok response = false ->
      serve w = (error_envelope (Error (js "Gemini API error: " ++ N_text (status response)
                                          ++ js " " ++ statusText response)),
                 [Fetch key (buildPrompt r (target r))])) /\
     (forall data,
        ok response = true -> response_json response = Normal data ->
        envelope_missing data ->
        serve w = (error_envelope (Error (js "Invalid response from Gemini API")),
                   [Fetch key (buildPrompt r (target r))]))) /\
  (forall e,
     response_status (error_envelope e) = 500%N /\
     response_body (error_envelope e)
     = Some (JObject [(js "error", JString (message e));
                      (js "details", JString (js "Failed to generate diet plan"))]) /\
     (forall b, response_body (error_envelope e) = Some b -> Shape.plan b = None)).
Proof.
  intros Hm. split; [ | split].
  - now apply serve_without_key.
  - intros key r response Hk Hne Hr Hp.
    assert (G := generate_with_key w key r Hk Hne Hr). rewrite Hp in G.
    unfold serve. rewrite (method_not_options w Hm). split.
    + intros Hok. rewrite Hok in G. cbn [negb] in G. now rewrite G.
    + intros data Hok Hd Hmiss. rewrite Hok, Hd in G. cbn [negb] in G.
      rewrite (envelope_missing_invalid data Hmiss) in G. now rewrite G.
  - apply error_envelope_no_plan.
Qed.

Lemma generate_failures_witness :
  let r := sample_request "weight_loss" 80 70 30 10 in
  let key := js "secret" in
  let down := {| ok := false; status := 503; statusText := js "Service Unavailable";
                 response_json := Normal JNull |} in
  let empty := respond (JObject [(js "promptFeedback", JObject [])]) in
  serve (sample_world None r (Normal empty))
  = (error_envelope (Error (js "GEMINI_API_KEY not found in environment variables")), []) /\
  serve (sample_world (Some key) r (Normal down))
  = (error_envelope (Error (js "Gemini API error: 503 Service Unavailable")),
     [Fetch key (buildPrompt r (of_Z 1100))]) /\
  serve (sample_world (Some key) r (Normal empty))
  = (error_envelope (Error (js "Invalid response from Gemini API")),
     [Fetch key (buildPrompt r (of_Z 1100))]).
Proof.
  intros r key down empty. split; [ | split].
  - apply (generate_failures (sample_world None r (Normal empty))); [discriminate | now left].
  - destruct (generate_failures (sample_world (Some key) r (Normal down))) as (_ & H & _);
      [discriminate | ].
    destruct (H key r down eq_refl ltac:(discriminate) eq_refl eq_refl) as [H1 _].
    exact (H1 eq_refl).
  - destruct (generate_failures (sample_world (Some key) r (Normal empty))) as (_ & H & _);
      [discriminate | ].
    destruct (H key r empty eq_refl ltac:(discriminate) eq_refl eq_refl) as [_ H2].
    apply (H2 (JObject [(js "promptFeedback", JObject [])]) eq_refl eq_refl).
    now apply no_candidates.
Defined.

(** C3. Whenever the inner [try] throws, the plan returned is the fallback
    plan: [dailyCalories] is the target [T], breakfast, lunch and dinner
    carry [round (0.25 * T)], [round (0.35 * T)] and [round (0.30 * T)], and
    the one snack [round (0.10 * T)], with the fixed food lists of
    [spec_fallback].  In the handler, [T] is the target computed from the
    request that was received. *)
Theorem fallback_plan_fields (generatedText : value) (e : error) :
  extract generatedText = Throw e ->
  (forall T, exists plan,
     parse generatedText T = Normal plan /\
     Shape.plan plan = Some (spec_fallback T) /\
     exists snack, snacks (spec_fallback T) = [snack] /\
                   SnackEntry.calories snack = Math.round (mul (decimal 10 2) T)) /\
  (forall w key r response data,
     method w <> js "OPTIONS" ->
     GEMINI_API_KEY w = Some key -> key <> [] -> req_json w = Normal r ->
     provider w key (buildPrompt r (target r)) = Normal response ->
     ok response = true -> response_json response = Normal data ->
     invalid_response data = Normal false ->
     generatedText_of data = Normal generatedText ->
     exists plan,
       serve w = ({| response_status := 200; response_body := Some plan |},
                  [Fetch key (buildPrompt r (target r))]) /\
       Shape.plan plan = Some (spec_fallback (target r)) /\
       dailyCalories (spec_fallback (target r))
       = targetCalories (goalType r) (currentWeight r) (targetWeight r) (age r)
                        (goalDurationWeeks r)).
Proof.
  intros He. split.
  - intros T. exists (fallback T). split; [now apply (parse_throw _ _ e) | ].
    split; [apply fallback_shape | ]. eexists. split; reflexivity.
  - intros w key r response data Hm Hk Hne Hr Hp Hok Hd Hi Hg.
    exists (fallback (target r)).
    assert (G := generate_with_key w key r Hk Hne Hr).
    rewrite Hp, Hok, Hd, Hi, Hg, (parse_throw _ _ e He) in G. cbn [negb] in G.
    unfold serve. rewrite (method_not_options w Hm), G.
    split; [reflexivity | ]. split; [apply fallback_shape | reflexivity].
Qed.

Lemma fallback_plan_fields_witness :
  let generatedText := Some (JString (js "I am sorry, I cannot write a plan right now.")) in
  let r := sample_request "weight_gain" 60 70 35 20 in
  let key := js "secret" in
  let w := sample_world (Some key) r
             (Normal (respond (envelope (js "I am sorry, I cannot write a plan right now.")))) in
  extract generatedText = Throw (Error (js "No JSON found in response")) /\
  (exists plan, parse generatedText (of_Z 1650) = Normal plan /\
                Shape.plan plan = Some (spec_fallback (of_Z 1650))) /\
  (exists plan, serve w = ({| response_status := 200; response_body := Some plan |},
                           [Fetch key (buildPrompt r (of_Z 1650))]) /\
                Shape.plan plan = Some (spec_fallback (of_Z 1650))).
Proof.
  intros generatedText r key w.
  assert (He : extract generatedText = Throw (Error (js "No JSON found in response")))
    by reflexivity.
  destruct (fallback_plan_fields generatedText _ He) as [H1 H2].
  split; [exact He | split].
  - destruct (H1 (of_Z 1650)) as (plan & Hp & Hs & _). exists plan. now split.
  - destruct (H2 w key r (respond (envelope (js "I am sorry, I cannot write a plan right now.")))
                _ ltac:(discriminate) eq_refl ltac:(discriminate) eq_refl eq_refl eq_refl
                eq_refl eq_refl eq_refl) as (plan & Hs & Hp & _).
    exists plan. split; [exact Hs | exact Hp].
Defined.

(** C8, as stated, fails: with a duration of zero weeks nothing is thrown.
    The target is the number -Infinity, the call to the provider is made, and
    the answer is a plan with status 200. *)
Lemma zero_weeks_completes :
  let r := sample_request "weight_loss" 80 70 30 0 in
  let key := js "secret" in
  let w := sample_world (Some key) r (Normal (respond (envelope (js "No plan today.")))) in
  goalDurationWeeks r = S754_zero false /\
  target r = neg_Infinity /\
  serve w = ({| response_status := 200; response_body := Some (fallback neg_Infinity) |},
             [Fetch key (buildPrompt r neg_Infinity)]).
Proof. vm_compute. repeat split. Qed.

Lemma serve_calls_provider (w : World) (key : text) (r : DietPlanRequest) :
  method w <> js "OPTIONS" ->
  GEMINI_API_KEY w = Some key -> key <> [] -> req_json w = Normal r ->
  snd (serve w) = [Fetch key (buildPrompt r (target r))].
Proof.
  intros Hm Hk Hne Hr. unfold serve.
  rewrite (method_not_options w Hm), (generate_with_key w key r Hk Hne Hr).
  match goal with
  | |- context [match ?c with Normal _ => _ | Throw _ => _ end] => now destruct c
  end.
Qed.

(** C8, as the handler behaves: with a duration of zero weeks nothing is
    thrown.  The division is the IEEE one, so the target is NaN when the two
    weights have a zero (or NaN) difference, and otherwise an infinity:
    -Infinity for [weight_loss] and +Infinity for any other goal type when
    the duration is [0], the other way round when it is [-0].  The handler
    goes on to call the provider with that target in the prompt. *)
Theorem zero_weeks_no_error (w : World) (key : text) (r : DietPlanRequest) (s : bool) :
  method w <> js "OPTIONS" ->
  GEMINI_API_KEY w = Some key -> key <> [] -> req_json w = Normal r ->
  goalDurationWeeks r = S754_zero s ->
  target r =
    match sub (targetWeight r) (currentWeight r) with
    | S754_zero _ | S754_nan => NaN
    | _ => if text_eqb (goalType r) (js "weight_loss")
           then S754_infinity (negb s) else S754_infinity s
    end /\
  snd (serve w) = [Fetch key (buildPrompt r (target r))].
Proof.
  intros Hm Hk Hne Hr Hd. split.
  - unfold target. rewrite Hd. apply targetCalories_zero_weeks.
  - now apply serve_calls_provider.
Qed.

Lemma zero_weeks_no_error_witness :
  let r := sample_request "weight_gain" 60 70 35 0 in
  let key := js "secret" in
  let w := sample_world (Some key) r (Normal (respond (envelope sample_plan_text))) in
  goalDurationWeeks r = of_Z 0 /\
  target r = Infinity /\
  snd (serve w) = [Fetch key (buildPrompt r Infinity)].
Proof.
  intros r key w. split; [reflexivity | ].
  exact (zero_weeks_no_error w key r false ltac:(discriminate) eq_refl ltac:(discriminate)
           eq_refl eq_refl).
Defined.

(** C10. For a request that meets the declared preconditions (positive
    weights, a positive whole age, a whole duration of at least one week) the
    target is a negative integer, and the fallback plan built from it has
    negative calories in each meal and in its snack. *)
Theorem negative_target_and_fallback :
  let r := sample_request "weight_loss" 100 50 25 1 in
  let key := js "secret" in
  let w := sample_world (Some key) r (Normal (respond (envelope (js "No plan today.")))) in
  (gt (currentWeight r) (of_Z 0) = true /\ gt (targetWeight r) (of_Z 0) = true /\
   gt (age r) (of_Z 0) = true /\ is_integer (age r) = true /\
   ge (goalDurationWeeks r) (of_Z 1) = true /\ is_integer (goalDurationWeeks r) = true) /\
  target r = of_Z (-23400) /\
  is_integer (target r) = true /\ is_negative (target r) = true /\
  (exists p, Shape.plan (fallback (target r)) = Some p /\
     MealEntry.calories (breakfast p) = of_Z (-5850) /\
     MealEntry.calories (lunch p) = of_Z (-8190) /\
     MealEntry.calories (dinner p) = of_Z (-7020) /\
     List.map SnackEntry.calories (snacks p) = [of_Z (-2340)] /\
     is_negative (MealEntry.calories (breakfast p)) = true /\
     is_negative (MealEntry.calories (lunch p)) = true /\
     is_negative (MealEntry.calories (dinner p)) = true /\
     forallb is_negative (List.map SnackEntry.calories (snacks p)) = true) /\
  serve w = ({| response_status := 200; response_body := Some (fallback (target r)) |},
             [Fetch key (buildPrompt r (target r))]).
Proof.
  cbv zeta. split; [vm_compute; repeat split | ].
  split; [vm_compute; reflexivity | ].
  split; [vm_compute; reflexivity | ].
  split; [vm_compute; reflexivity | ].
  split; [ | vm_compute; reflexivity].
  eexists. split; [apply fallback_shape | ].
  vm_compute. repeat split.
Qed.

(** * Further properties of the handler *)

(** ** Whole-number targets *)

Lemma digits2_pos_iter_xO (m k : positive) :
  Zpos (digits2_pos (Pos.iter xO m k)) = Zpos (digits2_pos m) + Zpos k.
Proof.
  induction k as [|k IH] using Pos.peano_ind.
  - simpl. lia.
  - rewrite Pos.iter_succ. cbn [digits2_pos]. lia.
Qed.

Lemma Zpos_iter_xO (m k : positive) : Zpos (Pos.iter xO m k) = Zpos m * 2 ^ Zpos k.
Proof.
  induction k as [|k IH] using Pos.peano_ind.
  - simpl. lia.
  - rewrite Pos.iter_succ, Pos2Z.inj_xO, IH, Pos2Z.inj_succ, Z.pow_succ_r; lia.
Qed.

Lemma shr_exponent (mrs : shr_record) (e n : Z) : e <= snd (shr mrs e n).
Proof. destruct n; simpl; lia. Qed.

Lemma binary_round_aux_exponent (s : bool) (m e : Z) (l : location) :
  0 <= e -> integral_or_not_finite (binary_round_aux prec emax s m e l).
Proof.
  intros He. unfold binary_round_aux, shr_fexp.
  match goal with |- context [shr ?a ?b ?c] =>
    pose proof (shr_exponent a b c) as H1; destruct (shr a b c) as [mrs' e'] end.
  match goal with |- context [shr ?a ?b ?c] =>
    pose proof (shr_exponent a b c) as H2; destruct (shr a b c) as [mrs'' e''] end.
  simpl in H1, H2.
  destruct (shr_m mrs'') as [|q|q].
  - left. reflexivity.
  - destruct (e'' <=? emax - prec).
    + left. simpl. apply orb_true_iff. left. apply Z.leb_le. lia.
    + destruct s; right; auto.
  - right. now left.
Qed.

(** A mantissa of exactly 53 bits is kept as it is. *)
Lemma binary_round_aux_exact (s : bool) (m : positive) (e : Z) :
  Zpos (digits2_pos m) = prec -> 3 - emax - prec <= e ->
  binary_round_aux prec emax s (Zpos m) e loc_Exact
  = if e <=? emax - prec then S754_finite s m e else S754_infinity s.
Proof.
  intros Hd He. unfold binary_round_aux, shr_fexp, fexp, emin, Zdigits2.
  rewrite Hd.
  replace (Z.max (prec + e - prec) (3 - emax - prec) - e) with 0 by lia.
  cbn [shr shr_record_of_loc shr_m loc_of_shr_record round_nearest_even Zdigits2].
  rewrite Hd.
  replace (Z.max (prec + e - prec) (3 - emax - prec) - e) with 0 by lia.
  reflexivity.
Qed.

Lemma binary_round_integral (s : bool) (m : positive) :
  integral_or_not_finite (binary_round prec emax s m 0).
Proof.
  unfold binary_round, shl_align.
  set (ex := fexp prec emax (Zpos (digits2_pos m) + 0)).
  assert (Hex : ex = Zpos (digits2_pos m) - prec)
    by (unfold ex, fexp, emin, prec, emax; lia).
  destruct (ex - 0) as [|k|k] eqn:Ek.
  - apply binary_round_aux_exponent. lia.
  - apply binary_round_aux_exponent. lia.
  - (* the mantissa is shorter than 53 bits: it is shifted left, nothing is rounded *)
    assert (Hk : ex = - Zpos k) by lia. rewrite Hk.
    rewrite binary_round_aux_exact;
      [ | rewrite digits2_pos_iter_xO; lia | unfold prec, emax in *; lia].
    destruct (- Zpos k <=? emax - prec); [ | destruct s; right; auto].
    left. cbn [is_integer]. apply orb_true_iff. right. apply Z.eqb_eq.
    rewrite Z.opp_involutive, Z.land_ones, Zpos_iter_xO by lia.
    apply Z.mod_mul. apply Z.pow_nonzero; lia.
Qed.

Lemma binary_normalize_integral (n : Z) (s : bool) :
  integral_or_not_finite (binary_normalize prec emax n 0 s).
Proof.
  destruct n as [|q|q]; cbn [binary_normalize].
  - now left.
  - apply binary_round_integral.
  - apply binary_round_integral.
Qed.

(** [Math.round] never leaves a fraction. *)
Lemma round_integral (x : number) : integral_or_not_finite (Math.round x).
Proof.
  destruct x as [s|s| |s m e].
  - now left.
  - destruct s; right; auto.
  - right. now left.
  - destruct e as [|q|q]; cbn [Math.round].
    + now left.
    + now left.
    + apply binary_normalize_integral.
Qed.

(** X16. The calorie target never has a fractional part: for every goal
    type and all numbers it is a whole number, NaN or an infinity, and so are
    the calories of the three meals and of the snack of the fallback plan
    built from it. *)
Theorem targetCalories_integral (g : text) (c t a d : number) :
  integral_or_not_finite (targetCalories g c t a d) /\
  (exists p, Shape.plan (fallback (targetCalories g c t a d)) = Some p /\
     integral_or_not_finite (MealEntry.calories (breakfast p)) /\
     integral_or_not_finite (MealEntry.calories (lunch p)) /\
     integral_or_not_finite (MealEntry.calories (dinner p)) /\
     Forall (fun k => integral_or_not_finite (SnackEntry.calories k)) (snacks p)).
Proof.
  split.
  - unfold targetCalories. destruct (text_eqb g (js "weight_loss")); apply round_integral.
  - eexists. split; [apply fallback_shape | ].
    split; [apply round_integral | ].
    split; [apply round_integral | ].
    split; [apply round_integral | ].
    apply Forall_cons; [apply round_integral | apply Forall_nil].
Qed.

(** ** Outbound calls *)

Lemma serve_options (w : World) :
  method w = js "OPTIONS" ->
  serve w = ({| response_status := 200; response_body := None |}, []).
Proof. intros H. unfold serve. now rewrite H. Qed.

Lemma serve_request_unreadable (w : World) (key : text) (e : error) :
  method w <> js "OPTIONS" -> GEMINI_API_KEY w = Some key -> key <> [] ->
  req_json w = Throw e -> serve w = (error_envelope e, []).
Proof.
  intros Hm Hk Hne Hr. unfold serve. rewrite (method_not_options w Hm).
  unfold generate, bind, lift, throw, ret. rewrite Hk.
  destruct key as [|c k]; [contradiction | ]. now rewrite Hr.
Qed.

(** X1. The handler calls the provider at most once.  It makes no call for
    a preflight request, without the key, or when the request body cannot be
    read; otherwise the one call carries the configured key and the prompt
    built from the request and its calorie target. *)
Theorem serve_calls_at_most_once (w : World) :
  (method w = js "OPTIONS" ->
   serve w = ({| response_status := 200; response_body := None |}, [])) /\
  (forall key e, method w <> js "OPTIONS" -> GEMINI_API_KEY w = Some key -> key <> [] ->
                 req_json w = Throw e -> serve w = (error_envelope e, [])) /\
  (List.length (snd (serve w)) <= 1)%nat /\
  (snd (serve w) <> [] ->
   exists key r,
     method w <> js "OPTIONS" /\ GEMINI_API_KEY w = Some key /\ key <> [] /\
     req_json w = Normal r /\
     snd (serve w) = [Fetch key (buildPrompt r (target r))]).
Proof.
  split; [apply serve_options | ].
  split; [apply serve_request_unreadable | ].
  assert (H : snd (serve w) = [] \/
              exists key r,
                method w <> js "OPTIONS" /\ GEMINI_API_KEY w = Some key /\ key <> [] /\
                req_json w = Normal r /\
                snd (serve w) = [Fetch key (buildPrompt r (target r))]).
  { destruct (text_eqb (method w) (js "OPTIONS")) eqn:Em.
    - left. apply text_eqb_eq in Em. now rewrite (serve_options w Em).
    - apply text_eqb_neq in Em.
      destruct (GEMINI_API_KEY w) as [[|c k]|] eqn:Ek.
      + left. rewrite (serve_without_key w Em); auto.
      + destruct (req_json w) as [r|e] eqn:Er.
        * right. exists (c :: k), r. repeat split; auto; try discriminate.
          apply serve_calls_provider; auto. discriminate.
        * left. rewrite (serve_request_unreadable w (c :: k) e); auto. discriminate.
      + left. rewrite (serve_without_key w Em); auto. }
  split.
  - destruct H as [-> | (key & r & _ & _ & _ & _ & ->)]; simpl; lia.
  - intros Hne. destruct H as [H | H]; [contradiction | exact H].
Qed.

(** ** Failures after the call *)

Lemma serve_with_key (w : World) (key : text) (r : DietPlanRequest) (c : completion json) :
  method w <> js "OPTIONS" ->
  generate w [] = (c, [Fetch key (buildPrompt r (target r))]) ->
  serve w = (match c with
             | Normal dietPlan => {| response_status := 200; response_body := Some dietPlan |}
             | Throw e => error_envelope e
             end, [Fetch key (buildPrompt r (target r))]).
Proof.
  intros Hm G. unfold serve. rewrite (method_not_options w Hm), G. now destruct c.
Qed.

(** X2. Once the call is made, a network failure, a reply whose body
    cannot be read, and a reply that passes the envelope check but has no
    [parts] to read the text from are each answered by the error envelope
    carrying the message of what was thrown; none of them falls back to the
    fixed plan. *)
Theorem serve_reply_failures (w : World) (key : text) (r : DietPlanRequest) :
  method w <> js "OPTIONS" -> GEMINI_API_KEY w = Some key -> key <> [] ->
  req_json w = Normal r ->
  (forall e, provider w key (buildPrompt r (target r)) = Throw e ->
             serve w = (error_envelope e, [Fetch key (buildPrompt r (target r))])) /\
  (forall response e,
     provider w key (buildPrompt r (target r)) = Normal response ->
     ok response = true -> response_json response = Throw e ->
     serve w = (error_envelope e, [Fetch key (buildPrompt r (target r))])) /\
  (forall response data e,
     provider w key (buildPrompt r (target r)) = Normal response ->
     ok response = true -> response_json response = Normal data ->
     invalid_response data = Normal false -> generatedText_of data = Throw e ->
     serve w = (error_envelope e, [Fetch key (buildPrompt r (target r))])) /\
  (forall members candidate rest content,
     lookup (js "candidates") members = Some (JArray (JObject candidate :: rest)) ->
     lookup (js "content") candidate = Some (JObject content) ->
     lookup (js "parts") content = None ->
     invalid_response (JObject members) = Normal false /\
     exists e, generatedText_of (JObject members) = Throw e).
Proof.
  intros Hm Hk Hne Hr.
  assert (G := generate_with_key w key r Hk Hne Hr).
  split; [ | split; [ | split]].
  - intros e Hp. rewrite Hp in G. now rewrite (serve_with_key w key r _ Hm G).
  - intros response e Hp Hok Hj. rewrite Hp, Hok, Hj in G. cbn [negb] in G.
    now rewrite (serve_with_key w key r _ Hm G).
  - intros response data e Hp Hok Hj Hi Hg. rewrite Hp, Hok, Hj, Hi, Hg in G. cbn [negb] in G.
    now rewrite (serve_with_key w key r _ Hm G).
  - intros members candidate rest content Hc Hn Hp.
    unfold invalid_response, generatedText_of.
    cbn [get key_text and_then]. rewrite Hc.
    cbn [truthy negb get nth_error key_text and_then]. rewrite Hn.
    cbn [truthy negb get nth_error key_text and_then]. rewrite Hp.
    split; [reflexivity | eexists; reflexivity].
Qed.

Lemma serve_reply_failures_witness :
  let r := sample_request "weight_loss" 80 70 30 10 in
  let key := js "secret" in
  let data := JObject [(js "candidates", JArray [JObject [(js "content",
                JObject [(js "role", JString (js "model"))])]])] in
  let w := sample_world (Some key) r (Normal (respond data)) in
  exists e, serve w = (error_envelope e, [Fetch key (buildPrompt r (of_Z 1100))]).
Proof.
  intros r key data w.
  destruct (serve_reply_failures w key r ltac:(discriminate) eq_refl ltac:(discriminate) eq_refl)
    as (_ & _ & H3 & H4).
  destruct (H4 [(js "candidates", JArray [JObject [(js "content",
                  JObject [(js "role", JString (js "model"))])]])]
               [(js "content", JObject [(js "role", JString (js "model"))])] []
               [(js "role", JString (js "model"))] eq_refl eq_refl eq_refl) as (Hi & e & He).
  exists e. exact (H3 (respond data) data e eq_refl eq_refl eq_refl Hi He).
Defined.

(** ** What the parse step returns *)

Lemma value_at_brace (fuel : nat) (r rest : text) (v : json) :
  JSON.value fuel (LBRACE :: r) = Some (v, rest) -> exists members, v = JObject members.
Proof.
  destruct fuel as [|f]; [discriminate | ].
  change (JSON.value (S f) (LBRACE :: r)) with
    (match JSON.skip_ws r with
     | c1 :: r1 =>
       if N.eqb c1 (ch "}") then Some (JObject [], r1)
       else match JSON.members f r with
            | Some (ms, rest) => Some (JObject ms, rest)
            | None => None
            end
     | [] => None
     end).
  destruct (JSON.skip_ws r) as [|c1 r1]; [discriminate | ].
  destruct (N.eqb c1 (ch "}")).
  - intros [= <- _]. now exists [].
  - destruct (JSON.members f r) as [[ms rest']|]; [ | discriminate].
    intros [= <- _]. now exists ms.
Qed.

Lemma parse_at_brace (m : text) (v : json) :
  JSON.parse (LBRACE :: m) = Normal v -> exists members, v = JObject members.
Proof.
  unfold JSON.parse.
  destruct (JSON.value _ (LBRACE :: m)) as [[u rest]|] eqn:E; [ | discriminate].
  destruct (JSON.skip_ws rest); [ | discriminate].
  intros [= <-]. now apply value_at_brace in E.
Qed.

(** X3. Whatever the provider generated, the parse step returns a JSON
    object: the fallback plan, or the object read from the span, which begins
    with an opening brace.  It never returns an array, a string, a number, a
    boolean or [null]. *)
Theorem parse_returns_object (generatedText : value) (T : number) :
  exists members, parse generatedText T = Normal (JObject members).
Proof.
  unfold parse.
  destruct (extract generatedText) as [v|e] eqn:E; cbn [try_catch].
  - unfold extract in E.
    destruct generatedText as [[| | |s| |]|]; try discriminate.
    destruct (jsonMatch s) as [m|] eqn:Em; [ | discriminate].
    apply jsonMatch_some in Em. destruct Em as (pre & mid & post & _ & _ & _ & ->).
    apply parse_at_brace in E. destruct E as [members ->]. now exists members.
  - unfold fallback. eexists. reflexivity.
Qed.

(** ** The answer to a well-formed reply *)





(** ** The span *)

(** X5. A span that was taken is a part of the text that begins with an
    opening brace and ends with a closing one, it is no longer than the
    text, and taking the span of the span gives the span again. *)
Theorem jsonMatch_stable (s m : text) :
  jsonMatch s = Some m ->
  jsonMatch m = Some m /\
  (List.length m <= List.length s)%nat /\
  List.hd_error m = Some LBRACE /\
  List.last m LBRACE = RBRACE /\
  exists pre post, s = pre ++ m ++ post.
Proof.
  intros H. apply jsonMatch_some in H.
  destruct H as (pre & mid & post & -> & nl & nr & ->).
  split; [ | split; [ | split; [ | split]]].
  - apply jsonMatch_some. exists [], mid, []. repeat split; auto.
  - cbn [List.length]. rewrite !length_app. cbn [List.length]. rewrite !length_app.
    cbn [List.length]. lia.
  - reflexivity.
  - change (LBRACE :: mid ++ [RBRACE]) with ((LBRACE :: mid) ++ [RBRACE]).
    apply last_last.
  - exists pre, post. cbn [app]. rewrite <- app_assoc. reflexivity.
Qed.

Lemma jsonMatch_stable_witness :
  jsonMatch (js "{cd}e}") = Some (js "{cd}e}") /\
  (List.length (js "{cd}e}") <= List.length (js "ab{cd}e}f{g"))%nat.
Proof.
  destruct (jsonMatch_stable (js "ab{cd}e}f{g") (js "{cd}e}") eq_refl) as (H1 & H2 & _).
  split; [exact H1 | exact H2].
Defined.

(** ** The prompt *)

Lemma replace_absent (pat by_ : code_unit) (s : text) :
  ~ In pat s -> replace pat by_ s = s.
Proof.
  induction s as [|c r IH]; [reflexivity | ]. intros H. cbn [replace].
  destruct (N.eqb_spec c pat) as [->|ne].
  - exfalso. apply H. now left.
  - rewrite IH; [reflexivity | ]. intros i. apply H. now right.
Qed.

Lemma replace_first (pat by_ : code_unit) (pre post : text) :
  ~ In pat pre -> replace pat by_ (pre ++ pat :: post) = pre ++ by_ :: post.
Proof.
  induction pre as [|c pre IH]; intros H; cbn [app replace].
  - now rewrite N.eqb_refl.
  - destruct (N.eqb_spec c pat) as [->|ne].
    + exfalso. apply H. now left.
    + rewrite IH; [reflexivity | ]. intros i. apply H. now right.
Qed.

(** X6. The prompt carries the numbers of the request and its calorie
    target unchanged.  Of the goal type and of the diet preference it
    replaces the first underscore by a space and nothing else: a text without
    an underscore is kept, and later underscores stay. *)
Theorem buildPrompt_fields (r : DietPlanRequest) (T : number) :
  let p := buildPrompt r T in
  (prompt_age p = age r /\ prompt_currentWeight p = currentWeight r /\
   prompt_targetWeight p = targetWeight r /\ prompt_weeks p = goalDurationWeeks r /\
   prompt_calories p = T) /\
  (~ In (ch "_") (goalType r) -> prompt_goal p = goalType r) /\
  (forall pre post, goalType r = pre ++ ch "_" :: post -> ~ In (ch "_") pre ->
                    prompt_goal p = pre ++ ch " " :: post) /\
  (~ In (ch "_") (dietPreference r) -> prompt_diet p = dietPreference r) /\
  (forall pre post, dietPreference r = pre ++ ch "_" :: post -> ~ In (ch "_") pre ->
                    prompt_diet p = pre ++ ch " " :: post) /\
  List.length (prompt_goal p) = List.length (goalType r) /\
  List.length (prompt_diet p) = List.length (dietPreference r).
Proof.
  assert (L : forall s, List.length (replace (ch "_") (ch " ") s) = List.length s).
  { induction s as [|c s IH]; [reflexivity | ]. cbn [replace].
    destruct (N.eqb c (ch "_")); cbn [List.length]; [reflexivity | now rewrite IH]. }
  cbv zeta. unfold buildPrompt. cbn [prompt_age prompt_currentWeight prompt_targetWeight
    prompt_weeks prompt_calories prompt_goal prompt_diet].
  split; [repeat split | ].
  split; [apply replace_absent | ].
  split; [intros pre post -> H; now apply replace_first | ].
  split; [apply replace_absent | ].
  split; [intros pre post -> H; now apply replace_first | ].
  split; apply L.
Qed.

(** ** Numbers that are not numbers *)

(** X7. A NaN in either weight or in the duration makes the target NaN,
    for every goal type and age; nothing is thrown and nothing is clamped.  A
    NaN age is not above 30, so it takes the base 1600, like an age of 30. *)
Theorem targetCalories_nan (g : text) (c t a d : number) :
  targetCalories g NaN t a d = NaN /\
  targetCalories g c NaN a d = NaN /\
  targetCalories g c t a NaN = NaN /\
  targetCalories g c t NaN d = targetCalories g c t (of_Z 30) d.
Proof.
  assert (A1 : dailyCalorieAdjustment NaN t d = NaN).
  { unfold dailyCalorieAdjustment, weeklyCalorieAdjustment, weeklyWeightChange,
      weightDifference. replace (sub t NaN) with NaN by now destruct t. reflexivity. }
  assert (A2 : dailyCalorieAdjustment c NaN d = NaN) by reflexivity.
  assert (A3 : dailyCalorieAdjustment c t NaN = NaN).
  { unfold dailyCalorieAdjustment, weeklyCalorieAdjustment, weeklyWeightChange,
      weightDifference, totalWeeks.
    replace (div (Math.abs (sub t c)) NaN) with NaN by now destruct (Math.abs (sub t c)).
    reflexivity. }
  assert (N1 : forall b, Math.round (sub b NaN) = NaN) by (intros b; now destruct b).
  assert (N2 : forall b, Math.round (add b NaN) = NaN) by (intros b; now destruct b).
  unfold targetCalories. rewrite A1, A2, A3.
  repeat split; try (destruct (text_eqb g (js "weight_loss")); auto).
Qed.

(** * The goal form *)

Ltac run_submit :=
  unfold handleSubmit, submit, ui_bind, ui_lift, ui_ret, emit, throw_if;
  repeat match goal with
         | |- context [insert_goal ?b ?r] =>
           destruct (insert_goal b r) as [[?gid|] [?e|]] eqn:?Eg
         | |- context [invoke ?b ?n ?r] => destruct (invoke b n r) as [?data [?e|]] eqn:?Ei
         | |- context [get ?v ?k] => destruct (get v k) as [?x|?e] eqn:?Eget
         | |- context [insert_plan ?b ?r] => destruct (insert_plan b r) as [?e|] eqn:?Ep
         end;
  cbn [fst snd List.rev app].

Ltac in_cases H :=
  cbn [In] in H;
  repeat match type of H with
         | _ \/ _ => destruct H as [H|H]
         | False => destruct H
         end;
  try discriminate H.

Section GoalSetupFacts.

Variables parseFloat parseInt : text -> number.
Variable backend : Backend.
Variables (goalKind : text) (formData : GoalData.t).

Let run (user : option text) (loading : bool) : list ui_event :=
  handleSubmit parseFloat parseInt backend user loading goalKind formData.

Lemma any_empty_false :
  any_empty formData = false <->
  GoalData.currentWeight formData <> [] /\ GoalData.targetWeight formData <> [] /\
  GoalData.age formData <> [] /\ GoalData.dietPreference formData <> [] /\
  GoalData.goalDurationWeeks formData <> [].
Proof.
  unfold any_empty.
  destruct (GoalData.currentWeight formData), (GoalData.targetWeight formData),
    (GoalData.age formData), (GoalData.dietPreference formData),
    (GoalData.goalDurationWeeks formData); split; try discriminate;
    try (intros (H1 & H2 & H3 & H4 & H5); congruence).
  intros _. repeat split; discriminate.
Qed.

(** X8. A submission does nothing at all without a signed-in user or while
    another one is in flight, and with an empty field it only shows the
    validation message.  Whenever it touches the backend, navigates or
    changes the loading flag, a user is signed in, no submission was in
    flight and all five fields are filled. *)
Theorem handleSubmit_guards (user : option text) (loading : bool) :
  (user = None \/ loading = true -> run user loading = []) /\
  (forall u, user = Some u -> loading = false -> any_empty formData = true ->
             run user loading = [Toast (js "Error") (js "Please fill in all fields") true]) /\
  (forall ev, In ev (run user loading) ->
              (forall t d b, ev <> Toast t d b) ->
              exists u, user = Some u /\ loading = false /\
                GoalData.currentWeight formData <> [] /\ GoalData.targetWeight formData <> [] /\
                GoalData.age formData <> [] /\ GoalData.dietPreference formData <> [] /\
                GoalData.goalDurationWeeks formData <> []).
Proof.
  unfold run, handleSubmit. split; [ | split].
  - intros [-> | ->]; [reflexivity | now destruct user].
  - intros u -> -> H. now rewrite H.
  - intros ev Hin Hnt. destruct user as [u|]; [ | destruct Hin].
    destruct loading; [destruct Hin | ].
    destruct (any_empty formData) eqn:E.
    + destruct Hin as [<- | []]. now destruct (Hnt _ _ _ eq_refl).
    + exists u. split; [reflexivity | split; [reflexivity | now apply any_empty_false]].
Qed.

Lemma run_checked (user : option text) (loading : bool) (ev : ui_event) :
  In ev (run user loading) -> (forall t d b, ev <> Toast t d b) ->
  exists u, user = Some u /\ loading = false /\ any_empty formData = false.
Proof.
  unfold run, handleSubmit. intros Hin Hnt.
  destruct user as [u|]; [ | destruct Hin]. destruct loading; [destruct Hin | ].
  destruct (any_empty formData); [ | now exists u].
  destruct Hin as [<- | []]. now destruct (Hnt _ _ _ eq_refl).
Qed.

(** X10. Whenever the function is invoked, it is [generate-diet-plan], the
    goal row was inserted before without an error, and the body sent carries
    the goal type, the weights, the age, the diet preference and the duration
    of that very row. *)
Theorem invoke_after_goal (user : option text) (loading : bool)
    (function : text) (body : DietPlanRequest) :
  In (Invoke function body) (run user loading) ->
  exists u row,
    user = Some u /\ row = goal_row parseFloat parseInt goalKind formData u /\
    In (InsertGoal row) (run user loading) /\
    snd (insert_goal backend row) = None /\
    function = js "generate-diet-plan" /\
    body = request_body parseFloat parseInt goalKind formData /\
    goalType body = GoalRow.goal_type row /\
    currentWeight body = GoalRow.current_weight row /\
    targetWeight body = GoalRow.target_weight row /\
    age body = GoalRow.age row /\
    dietPreference body = GoalRow.diet_preference row /\
    goalDurationWeeks body = GoalRow.goal_duration_weeks row.
Proof.
  intros Hin.
  destruct (run_checked user loading _ Hin ltac:(discriminate)) as (u & -> & -> & E).
  exists u, (goal_row parseFloat parseInt goalKind formData u).
  split; [reflexivity | split; [reflexivity | ]].
  revert Hin. unfold run, handleSubmit. rewrite E. run_submit.
  all: intros Hin; in_cases Hin; injection Hin as <- <-.
  all: split; [cbn [In]; auto | ]; repeat split.
Qed.

(** X9. A submission that passes the checks raises the loading flag first,
    then inserts the goal row, and lowers the flag last, on every path; in
    between it shows exactly one message, of success or of failure. *)
Theorem handleSubmit_brackets (u : text) :
  any_empty formData = false ->
  exists middle,
    run (Some u) false
    = SetLoading true :: InsertGoal (goal_row parseFloat parseInt goalKind formData u)
        :: middle ++ [SetLoading false] /\
    ~ In (SetLoading false) middle /\ ~ In (SetLoading true) middle /\
    List.length (List.filter (fun e => match e with Toast _ _ _ => true | _ => false end) middle)
    = 1%nat.
Proof.
  intros filled. unfold run, handleSubmit. rewrite filled. run_submit.
  all: match goal with
       | |- exists _, _ :: _ :: ?l = _ /\ _ => exists (removelast l)
       end; cbn [removelast]; split; [reflexivity | ];
    split; [intros H; in_cases H | split; [intros H; in_cases H | reflexivity]].
Qed.

(** X11. A plan row is inserted only after the goal row was inserted and
    the function was invoked, both without an error.  The row belongs to the
    signed-in user and to the goal that was just inserted, it stores the
    [dailyCalories], [breakfast], [lunch] and [dinner] of the answer as they
    came, and its [snacks] are those of the answer, or the empty array when
    the answer has none. *)
Theorem plan_row_provenance (user : option text) (loading : bool) (row : PlanRow.t) :
  In (InsertPlan row) (run user loading) ->
  exists u gid dietPlan snacks,
    user = Some u /\
    insert_goal backend (goal_row parseFloat parseInt goalKind formData u) = (Some gid, None) /\
    invoke backend (js "generate-diet-plan") (request_body parseFloat parseInt goalKind formData)
    = (dietPlan, None) /\
    PlanRow.goal_id row = gid /\ PlanRow.user_id row = u /\
    get dietPlan (Name (js "dailyCalories")) = Normal (PlanRow.daily_calories row) /\
    get dietPlan (Name (js "breakfast")) = Normal (PlanRow.breakfast row) /\
    get dietPlan (Name (js "lunch")) = Normal (PlanRow.lunch row) /\
    get dietPlan (Name (js "dinner")) = Normal (PlanRow.dinner row) /\
    get dietPlan (Name (js "snacks")) = Normal snacks /\
    PlanRow.snacks row = (if truthy snacks then snacks else Some (JArray [])) /\
    truthy (PlanRow.snacks row) = true.
Proof.
  intros Hin.
  destruct (run_checked user loading _ Hin ltac:(discriminate)) as (u & -> & -> & E).
  exists u. revert Hin. unfold run, handleSubmit. rewrite E. run_submit.
  all: intros Hin; in_cases Hin; injection Hin as <-.
  all: eexists; eexists; eexists; cbn [PlanRow.goal_id PlanRow.user_id PlanRow.daily_calories
         PlanRow.breakfast PlanRow.lunch PlanRow.dinner PlanRow.snacks];
    repeat (split; [reflexivity || eassumption | ]);
    match goal with |- truthy (if truthy ?s then _ else _) = true =>
      destruct (truthy s) eqn:Et; [exact Et | reflexivity] end.
Qed.

(** X12. The form navigates only to the dashboard of the goal it has just
    inserted, and only after the goal insert, the invocation and the plan
    insert have all succeeded; the success message was shown before, and no
    error message is shown on that path. *)
Theorem navigate_after_success (user : option text) (loading : bool) (path : text) :
  In (Navigate path) (run user loading) ->
  exists u gid row,
    user = Some u /\
    insert_goal backend (goal_row parseFloat parseInt goalKind formData u) = (Some gid, None) /\
    snd (invoke backend (js "generate-diet-plan")
           (request_body parseFloat parseInt goalKind formData)) = None /\
    In (InsertPlan row) (run user loading) /\ insert_plan backend row = None /\
    path = js "/dashboard/" ++ gid /\
    In (Toast (js "Success!") (js "Your personalized diet plan has been created.") false)
       (run user loading) /\
    (forall t d, ~ In (Toast t d true) (run user loading)).
Proof.
  intros Hin.
  destruct (run_checked user loading _ Hin ltac:(discriminate)) as (u & -> & -> & E).
  exists u. revert Hin. unfold run, handleSubmit. rewrite E. run_submit.
  all: intros Hin; in_cases Hin; injection Hin as <-.
  eexists; eexists.
  split; [reflexivity | ]. split; [reflexivity | ]. split; [reflexivity | ].
  split; [cbn [In]; do 3 right; left; reflexivity | ].
  split; [eassumption | ]. split; [reflexivity | ].
  split; [cbn [In]; auto 10 | ].
  intros t d H. in_cases H.
Qed.

(** X13. A failed goal insert stops the submission before the function is
    invoked, and a failed invocation stops it before a plan is inserted; the
    goal row inserted before stays as it is.  The message shown is the
    error's own, or the fixed one when the error has none. *)
Theorem handleSubmit_failures (u : text) (e : error) :
  any_empty formData = false ->
  let row := goal_row parseFloat parseInt goalKind formData u in
  let body := request_body parseFloat parseInt goalKind formData in
  (snd (insert_goal backend row) = Some e ->
   run (Some u) false
   = [SetLoading true; InsertGoal row; Toast (js "Error") (description_of e) true;
      SetLoading false]) /\
  (snd (insert_goal backend row) = None ->
   snd (invoke backend (js "generate-diet-plan") body) = Some e ->
   run (Some u) false
   = [SetLoading true; InsertGoal row; Invoke (js "generate-diet-plan") body;
      Toast (js "Error") (description_of e) true; SetLoading false]) /\
  (message e <> [] -> description_of e = message e) /\
  (message e = [] -> description_of e = js "Failed to create your goal. Please try again.").
Proof.
  intros filled row body. unfold run, handleSubmit. rewrite filled.
  split; [ | split; [ | split]].
  - subst row. run_submit; cbn [snd]; intros [= <-] || intros [=]; reflexivity.
  - subst row body. run_submit; cbn [snd]; intros H1 H2;
      try discriminate H1; try discriminate H2; injection H2 as <-; reflexivity.
  - unfold description_of. destruct (message e); [contradiction | reflexivity].
  - unfold description_of. now intros ->.
Qed.

End GoalSetupFacts.

Lemma handleSubmit_brackets_witness :
  any_empty sample_form = false /\
  exists middle,
    sample_submit (Some (js "goal-1"), None)
      (Some (JObject [(js "dailyCalories", JNumber (of_Z 1100))]), None) None
    = SetLoading true
        :: InsertGoal (goal_row digits_number digits_number (js "weight_loss") sample_form
                         (js "user-1"))
        :: middle ++ [SetLoading false].
Proof.
  split; [reflexivity | ].
  destruct (handleSubmit_brackets digits_number digits_number
              (sample_backend (Some (js "goal-1"), None)
                 (Some (JObject [(js "dailyCalories", JNumber (of_Z 1100))]), None) None)
              (js "weight_loss") sample_form (js "user-1") eq_refl) as (middle & H & _).
  exists middle. exact H.
Defined.

Lemma invoke_after_goal_witness :
  let trace := sample_submit (Some (js "goal-1"), None)
                 (None, Some (Error (js "Edge Function returned a non-2xx status code"))) None in
  let body := request_body digits_number digits_number (js "weight_loss") sample_form in
  In (Invoke (js "generate-diet-plan") body) trace /\
  currentWeight body = of_Z 80 /\ goalDurationWeeks body = of_Z 10 /\
  exists row, In (InsertGoal row) trace /\
              currentWeight body = GoalRow.current_weight row /\
              goalDurationWeeks body = GoalRow.goal_duration_weeks row.
Proof.
  intros trace body.
  assert (Hin : In (Invoke (js "generate-diet-plan") body) trace)
    by (right; right; left; reflexivity).
  split; [exact Hin | ]. split; [reflexivity | ]. split; [reflexivity | ].
  destruct (invoke_after_goal digits_number digits_number
              (sample_backend (Some (js "goal-1"), None)
                 (None, Some (Error (js "Edge Function returned a non-2xx status code"))) None)
              (js "weight_loss") sample_form (Some (js "user-1")) false
              (js "generate-diet-plan") body Hin)
    as (u & row & _ & _ & Hrow & _ & _ & _ & _ & Hc & _ & _ & _ & Hd).
  exists row. split; [exact Hrow | split; [exact Hc | exact Hd]].
Defined.

Lemma plan_row_provenance_witness :
  let dietPlan := Some (JObject [(js "dailyCalories", JNumber (of_Z 1100))]) in
  let trace := sample_submit (Some (js "goal-1"), None) (dietPlan, None) None in
  let row := {| PlanRow.goal_id := js "goal-1"; PlanRow.user_id := js "user-1";
                PlanRow.daily_calories := Some (JNumber (of_Z 1100));
                PlanRow.breakfast := undefined; PlanRow.lunch := undefined;
                PlanRow.dinner := undefined; PlanRow.snacks := Some (JArray []) |} in
  In (InsertPlan row) trace /\
  get dietPlan (Name (js "dailyCalories")) = Normal (PlanRow.daily_calories row) /\
  truthy (PlanRow.snacks row) = true.
Proof.
  intros dietPlan trace row.
  assert (Hin : In (InsertPlan row) trace) by (do 3 right; left; reflexivity).
  split; [exact Hin | ].
  destruct (plan_row_provenance digits_number digits_number
              (sample_backend (Some (js "goal-1"), None) (dietPlan, None) None)
              (js "weight_loss") sample_form (Some (js "user-1")) false row Hin)
    as (u & gid & plan & snacks & _ & _ & Hi & _ & _ & Hd & _ & _ & _ & _ & _ & Ht).
  injection Hi as <-. split; [exact Hd | exact Ht].
Defined.

Lemma navigate_after_success_witness :
  let trace := sample_submit (Some (js "goal-1"), None) (Some (fallback (of_Z 1100)), None) None in
  In (Navigate (js "/dashboard/goal-1")) trace /\
  In (Toast (js "Success!") (js "Your personalized diet plan has been created.") false) trace /\
  (forall t d, ~ In (Toast t d true) trace).
Proof.
  intros trace.
  assert (Hin : In (Navigate (js "/dashboard/goal-1")) trace) by (do 5 right; left; reflexivity).
  split; [exact Hin | ].
  destruct (navigate_after_success digits_number digits_number
              (sample_backend (Some (js "goal-1"), None) (Some (fallback (of_Z 1100)), None) None)
              (js "weight_loss") sample_form (Some (js "user-1")) false
              (js "/dashboard/goal-1") Hin)
    as (u & gid & row & _ & _ & _ & _ & _ & _ & Ht & Hn).
  split; [exact Ht | exact Hn].
Defined.

Lemma handleSubmit_failures_witness :
  any_empty sample_form = false /\
  sample_submit (None, Some (Error (js "duplicate key"))) (None, None) None
  = [SetLoading true;
     InsertGoal (goal_row digits_number digits_number (js "weight_loss") sample_form
                   (js "user-1"));
     Toast (js "Error") (js "duplicate key") true; SetLoading false].
Proof.
  split; [reflexivity | ].
  exact (proj1 (handleSubmit_failures digits_number digits_number
                  (sample_backend (None, Some (Error (js "duplicate key"))) (None, None) None)
                  (js "weight_loss") sample_form (js "user-1") (Error (js "duplicate key"))
                  eq_refl) eq_refl).
Defined.

(** * The progress page *)

Lemma insert_perm {A} (cmp : A -> A -> number) (x : A) (l : list A) :
  Permutation (insert cmp x l) (x :: l).
Proof.
  induction l as [|y l IH]; cbn [insert]; [reflexivity | ].
  destruct (is_negative (cmp x y)); [reflexivity | ].
  rewrite IH. apply perm_swap.
Qed.

Lemma sort_perm {A} (cmp : A -> A -> number) (l : list A) : Permutation (sort cmp l) l.
Proof.
  unfold sort.
  assert (H : forall acc, Permutation (fold_left (fun acc x => insert cmp x acc) l acc)
                                      (acc ++ l)).
  { induction l as [|x l IH]; intros acc; cbn [fold_left].
    - now rewrite app_nil_r.
    - rewrite IH, insert_perm. apply Permutation_middle. }
  apply (H []).
Qed.

Lemma abs_fixed_not_negative (x : number) :
  Math.abs x = x -> is_negative x = false.
Proof. destruct x as [[|]|[|]| |[|] m e]; try discriminate; reflexivity. Qed.

Lemma abs_round_aux (m e : Z) (l : location) :
  Math.abs (binary_round_aux prec emax false m e l) = binary_round_aux prec emax false m e l.
Proof.
  unfold binary_round_aux.
  destruct (shr_fexp prec emax m e l) as [mrs e'].
  destruct (shr_fexp prec emax _ e' loc_Exact) as [mrs' e''].
  destruct (shr_m mrs'); [reflexivity | | reflexivity].
  destruct (e'' <=? emax - prec); reflexivity.
Qed.

Lemma abs_div_abs (a b : number) :
  Math.abs (div (Math.abs a) (Math.abs b)) = div (Math.abs a) (Math.abs b).
Proof.
  destruct a as [sa|sa| |sa ma ea], b as [sb|sb| |sb mb eb]; try reflexivity.
  unfold div, Math.abs, SFabs, SFdiv.
  destruct (SFdiv_core_binary prec emax (Zpos ma) ea (Zpos mb) eb) as [[mz ez] lz].
  apply abs_round_aux.
Qed.

Lemma abs_mul_hundred (x : number) :
  Math.abs x = x -> Math.abs (mul x (of_Z 100)) = mul x (of_Z 100).
Proof.
  destruct x as [[|]|[|]| |[|] m e]; try discriminate; try reflexivity.
  intros _. apply abs_round_aux.
Qed.

Lemma min_hundred (y : number) :
  Math.abs y = y ->
  gt (Math_min (of_Z 100) y) (of_Z 100) = false /\
  is_negative (Math_min (of_Z 100) y) = false.
Proof.
  intros Hy. unfold Math_min, gt.
  destruct (SFcompare (of_Z 100) y) as [[| |]|] eqn:E.
  - destruct y as [[|]|sy| |sy my ey]; split; reflexivity.
  - split; reflexivity.
  - split; [unfold SFltb; now rewrite E | now apply abs_fixed_not_negative].
  - split; reflexivity.
Qed.

Section HistoryFacts.

Variable getTime : text -> number.
Variable toLocaleDateString : text -> text.
Variable weightHistory : list WeightEntry.t.

(** X14. The progress shown is never above 100 and never below 0,
    whatever the weights recorded (it is NaN when the goal's two weights and
    the latest entry are all equal).  It is 0 when no goal is selected and
    when the selected goal has no entry. *)
Theorem calculateProgress_bounds (selectedGoal : option Goal.t) :
  let p := calculateProgress getTime selectedGoal weightHistory in
  gt p (of_Z 100) = false /\ is_negative p = false /\
  (selectedGoal = None -> p = of_Z 0) /\
  (forall g, selectedGoal = Some g -> List.filter (of_goal g) weightHistory = [] ->
             p = of_Z 0).
Proof.
  cbv zeta. unfold calculateProgress.
  destruct selectedGoal as [g|].
  - destruct (sort _ (filter (of_goal g) weightHistory)) as [|latest rest] eqn:E.
    + repeat split; auto.
    + split; [ | split; [ | split]].
      * apply min_hundred, abs_mul_hundred, abs_div_abs.
      * apply min_hundred, abs_mul_hundred, abs_div_abs.
      * discriminate.
      * intros g' [= <-] Hf. rewrite Hf in E. discriminate E.
  - repeat split; auto.
Qed.

(** X15. The chart data of the selected goal has one point for each entry
    recorded for that goal and for no other: its weights are those entries'
    weights, each once, and every point carries the goal's target weight.
    Without a selected goal there is no point. *)
Theorem getProgressData_points (selectedGoal : option Goal.t) :
  let points := getProgressData getTime toLocaleDateString selectedGoal weightHistory in
  (selectedGoal = None -> points = []) /\
  (forall g, selectedGoal = Some g ->
     Permutation (List.map ProgressData.weight points)
                 (List.map WeightEntry.current_weight
                           (List.filter (of_goal g) weightHistory)) /\
     List.length points = List.length (List.filter (of_goal g) weightHistory) /\
     Forall (fun d => ProgressData.target d = Goal.target_weight g) points /\
     (forall entry, In entry weightHistory -> WeightEntry.goal_id entry <> Goal.id g ->
                    List.length points < List.length weightHistory)%nat).
Proof.
  cbv zeta. unfold getProgressData. split; [now intros -> | ].
  intros g ->.
  set (cmp := fun a b : WeightEntry.t => _).
  pose proof (sort_perm cmp (filter (of_goal g) weightHistory)) as P.
  split; [ | split; [ | split]].
  - rewrite map_map. cbn [ProgressData.weight]. now apply Permutation_map.
  - rewrite length_map. now apply Permutation_length.
  - apply Forall_forall. intros d Hd. apply in_map_iff in Hd.
    destruct Hd as (entry & <- & _). reflexivity.
  - intros entry Hin Hne. rewrite length_map, (Permutation_length P).
    clear P cmp. induction weightHistory as [|x l IH]; [destruct Hin | ].
    cbn [filter List.length]. destruct Hin as [-> | Hin].
    + assert (E : of_goal g entry = false) by now apply text_eqb_neq.
      rewrite E. pose proof (filter_length_le (of_goal g) l). lia.
    + specialize (IH Hin). destruct (of_goal g x); cbn [List.length]; lia.
Qed.

End HistoryFacts.

(** X17. Entries recorded for other goals never influence the selected
    goal: with or without such an entry, anywhere in the history, the
    progress and the chart data are the same. *)
Theorem other_goals_ignored (getTime : text -> number) (toLocaleDateString : text -> text)
    (g : Goal.t) (before after : list WeightEntry.t) (entry : WeightEntry.t) :
  WeightEntry.goal_id entry <> Goal.id g ->
  calculateProgress getTime (Some g) (before ++ entry :: after)
  = calculateProgress getTime (Some g) (before ++ after) /\
  getProgressData getTime toLocaleDateString (Some g) (before ++ entry :: after)
  = getProgressData getTime toLocaleDateString (Some g) (before ++ after).
Proof.
  intros Hne.
  assert (E : of_goal g entry = false) by now apply text_eqb_neq.
  assert (F : filter (of_goal g) (before ++ entry :: after)
              = filter (of_goal g) (before ++ after)).
  { rewrite !filter_app. cbn [filter]. now rewrite E. }
  unfold calculateProgress, getProgressData. now rewrite F.
Qed.

Lemma other_goals_ignored_witness :
  let g := {| Goal.id := js "goal-1"; Goal.goal_type := js "weight_loss";
              Goal.current_weight := of_Z 80; Goal.target_weight := of_Z 70;
              Goal.goal_duration_weeks := of_Z 10; Goal.created_at := js "1" |} in
  let mine := {| WeightEntry.id := js "e1"; WeightEntry.current_weight := of_Z 75;
                 WeightEntry.recorded_at := js "2"; WeightEntry.goal_id := js "goal-1" |} in
  let other := {| WeightEntry.id := js "e2"; WeightEntry.current_weight := of_Z 60;
                  WeightEntry.recorded_at := js "3"; WeightEntry.goal_id := js "goal-2" |} in
  calculateProgress digits_number (Some g) [mine; other]
  = calculateProgress digits_number (Some g) [mine] /\
  calculateProgress digits_number (Some g) [mine] = of_Z 50.
Proof.
  intros g mine other. split; [ | vm_compute; reflexivity].
  apply (other_goals_ignored digits_number (fun s => s) g [mine] [] other).
  discriminate.
Defined.
